(** * Wallet service: a shallow embedding of the transfer engine

    Part I embeds the program, module by module, in the order of its
    dependencies:
    - [Js]            the few JavaScript primitives the code relies on
                      (truthiness, [Number.isInteger], [parseInt], [||]);
    - [Errors]        src/utils/errors.js, the application error classes;
    - [Model]         sql/001_schema.sql: the tables and their rows, the world
                      a request runs in and the computations over it;
    - [Db]            src/config/db.js and the statements the service sends
                      through it, with [withTransaction];
    - [WalletService] src/services/walletService.js;
    - [Http]          the requests and responses of the HTTP layer;
    - [Idempotency]   src/middleware/idempotency.js;
    - [ErrorHandler]  src/middleware/errorHandler.js;
    - [Routes]        src/routes/wallet.js;
    - [Notions], [HttpNotions] and [Scenario]: the vocabulary of the
      statements, and a small world in which the code is run.
    Part II states and proves the properties.

    Modelling conventions.
    - A JavaScript Number that holds an integer is a [Z]; the service only
      adds, subtracts and compares such numbers, which is exact on the
      safe-integer range.  The store returns BIGINT columns in decimal
      notation and the code reads them back with [parseInt]; a balance is
      kept as the [Z] it denotes.
    - Strings are strings of bytes: identifiers are compared byte by byte,
      and the length of a key is its number of bytes.
    - Asynchronous code is sequential inside one request, so every function
      that talks to the store is a state-and-exception computation over a
      [World]: the tables, the snapshot taken at BEGIN, the clock, the supply
      of fresh identifiers and the log of the statements issued so far.
      Statements fail only by violating a column type or a constraint of the
      schema; requests do not interleave. *)

From Stdlib Require Import ZArith String Ascii List Lia.
From stdpp Require Import base option list gmap strings sorting pretty.

Local Open Scope string_scope.
Local Open Scope list_scope.
Local Open Scope Z_scope.

(** ** JavaScript primitives *)
Module Js.

(** The values that can reach the service through a JSON body. *)
Inductive JsValue :=
| JUndefined
| JNull
| JBool (b : bool)
| JInt (z : Z)               (* a Number whose value is an integer *)
| JFraction                  (* a finite Number with a fractional part *)
| JNaN
| JInfinity (negative : bool)
| JStr (s : string)
| JObject.                   (* any object or array *)

(** ToBoolean. *)
Definition truthy (v : JsValue) : bool :=
  match v with
  | JUndefined | JNull | JNaN => false
  | JBool b => b
  | JInt z => negb (z =? 0)
  | JFraction | JInfinity _ | JObject => true
  | JStr s => negb (String.eqb s "")
  end.

(** [Number.isInteger]. *)
Definition isInteger (v : JsValue) : bool :=
  match v with JInt _ => true | _ => false end.

(** [typeof v === 'string']. *)
Definition is_string (v : JsValue) : bool :=
  match v with JStr _ => true | _ => false end.

(** An optional string parameter: [None] is [undefined]. *)
Definition str_truthy (o : option string) : bool :=
  match o with
  | Some s => negb (String.eqb s "")
  | None => false
  end.

Definition of_opt_string (o : option string) : JsValue :=
  match o with Some s => JStr s | None => JUndefined end.

(** [a || b] on values. *)
Definition js_or (a b : JsValue) : JsValue :=
  if truthy a then a else b.

(** *** [parseInt] with the radix left out *)

Definition is_whitespace (a : ascii) : bool :=
  let n := N_of_ascii a in
  ((9 <=? n) && (n <=? 13))%N || (n =? 32)%N.

Fixpoint skip_whitespace (s : string) : string :=
  match s with
  | String a rest => if is_whitespace a then skip_whitespace rest else s
  | EmptyString => EmptyString
  end.

Definition digit_value (a : ascii) : option Z :=
  let n := Z.of_N (N_of_ascii a) in
  if (48 <=? n) && (n <=? 57) then Some (n - 48)
  else if (97 <=? n) && (n <=? 122) then Some (n - 87)
  else if (65 <=? n) && (n <=? 90) then Some (n - 55)
  else None.

(** The longest prefix of digits of the radix; [None] when it is empty. *)
Fixpoint parse_digits (radix : Z) (acc : option Z) (s : string) : option Z :=
  match s with
  | String a rest =>
      match digit_value a with
      | Some d =>
          if d <? radix
          then parse_digits radix (Some (default 0 acc * radix + d)) rest
          else acc
      | None => acc
      end
  | EmptyString => acc
  end.

Definition strip_sign (s : string) : Z * string :=
  match s with
  | String "-" rest => (-1, rest)
  | String "+" rest => (1, rest)
  | _ => (1, s)
  end.

Definition strip_radix (s : string) : Z * string :=
  match s with
  | String "0" (String "x" rest) => (16, rest)
  | String "0" (String "X" rest) => (16, rest)
  | _ => (10, s)
  end.

(** [parseInt(s)]; [None] is NaN. *)
Definition parseInt (s : string) : option Z :=
  let '(sign, s1) := strip_sign (skip_whitespace s) in
  let '(radix, s2) := strip_radix s1 in
  Z.mul sign <$> parse_digits radix None s2.

(** [parseInt] of a query parameter that may be absent: [undefined] is
    first turned into the string "undefined". *)
Definition parseInt_opt (q : option string) : option Z :=
  parseInt (default "undefined" q).

(** [n || d] for the result of [parseInt]: NaN and 0 are falsy. *)
Definition num_or (n : option Z) (d : Z) : Z :=
  match n with
  | Some z => if z =? 0 then d else z
  | None => d
  end.

End Js.

(** ** src/utils/errors.js *)
Module Errors.

Inductive AppError :=
| ValidationError (message : string)
| NotFoundError (resource id : string)
| InsufficientBalanceError (walletId : string) (requested available : Z)
| DuplicateTransactionError (idempotencyKey : string)
| ConcurrencyError (message : string).

Definition statusCode (e : AppError) : Z :=
  match e with
  | ValidationError _ => 400
  | NotFoundError _ _ => 404
  | InsufficientBalanceError _ _ _ => 422
  | DuplicateTransactionError _ => 409
  | ConcurrencyError _ => 409
  end.

Definition code (e : AppError) : string :=
  match e with
  | ValidationError _ => "VALIDATION_ERROR"
  | NotFoundError _ _ => "NOT_FOUND"
  | InsufficientBalanceError _ _ _ => "INSUFFICIENT_BALANCE"
  | DuplicateTransactionError _ => "DUPLICATE_TRANSACTION"
  | ConcurrencyError _ => "CONCURRENCY_CONFLICT"
  end.

Definition message (e : AppError) : string :=
  match e with
  | ValidationError m => m
  | NotFoundError resource id => resource +:+ " not found: " +:+ id
  | InsufficientBalanceError w r a =>
      "Insufficient balance in wallet " +:+ w +:+ ": requested " +:+ pretty r
        +:+ ", available " +:+ pretty a
  | DuplicateTransactionError k =>
      "Transaction with idempotency key already processed: " +:+ k
  | ConcurrencyError m => m
  end.

(** Everything that can be thrown inside a request: an application error, an
    error reported by the store (its SQLSTATE is the [code] field the error
    handler inspects) or a JavaScript [TypeError]. *)
Inductive Error :=
| App (e : AppError)
| Pg (sqlstate : string) (msg : string)
| TypeError (msg : string).

End Errors.

(** ** sql/001_schema.sql: the tables, and the world a request runs in *)
Module Model.
Import Errors.

Inductive TransactionType := TOPUP | BONUS | PURCHASE.
Inductive Status := PENDING | COMPLETED | FAILED | REVERSED.
Inductive EntryType := DEBIT | CREDIT.

#[global] Instance EntryType_eq_dec : EqDecision EntryType.
Proof. solve_decision. Defined.
#[global] Instance TransactionType_eq_dec : EqDecision TransactionType.
Proof. solve_decision. Defined.

(** *** Rows.  The primary key of [asset_types], [wallets] and
    [idempotency_store] is the key of the map that holds the table. *)

Record AssetType := {
  at_code : string;
  at_name : string;
  at_is_active : bool }.

Record Wallet := {
  w_user_id : string;
  w_asset_type_id : Z;
  w_balance : Z;
  w_allow_negative : bool;
  w_version : Z;
  w_updated_at : Z }.

Record Transaction := {
  t_id : string;
  t_idempotency_key : option string;
  t_transaction_type : TransactionType;
  t_status : Status;
  t_source_wallet_id : string;
  t_dest_wallet_id : string;
  t_asset_type_id : Z;
  t_amount : Z;
  t_description : string;
  t_metadata : gmap string string;
  t_created_at : Z }.

Record LedgerEntry := {
  le_transaction_id : string;
  le_wallet_id : string;
  le_entry_type : EntryType;
  le_amount : Z;
  le_balance_before : Z;
  le_balance_after : Z;
  le_created_at : Z }.

(** The object [executeTransfer] returns, which is also what the idempotency
    store keeps in its [response] column. *)
Record WalletChange := {
  wc_id : string;
  wc_balanceBefore : Z;
  wc_balanceAfter : Z }.

Record TransferResult := {
  r_transactionId : string;
  r_transactionType : TransactionType;
  r_sourceWallet : WalletChange;
  r_destWallet : WalletChange;
  r_amount : Z;
  r_description : string;
  r_timestamp : Z }.

Record IdempotencyRow := {
  i_response : TransferResult;
  i_status_code : Z;
  i_created_at : Z;
  i_expires_at : Z }.

Record Store := {
  asset_types : gmap Z AssetType;
  wallets : gmap string Wallet;
  transactions : list Transaction;
  ledger_entries : list LedgerEntry;
  idempotency_store : gmap string IdempotencyRow }.

(** The columns the wallet queries select, all queries together: the wallet
    joined with its asset type. *)
Record WalletRow := {
  wr_id : string;
  wr_user_id : string;
  wr_balance : Z;
  wr_allow_negative : bool;
  wr_version : Z;
  wr_asset_type_id : Z;
  wr_asset_code : string;
  wr_asset_name : string;
  wr_updated_at : Z }.

(** The columns of the history query. *)
Record HistoryRow := {
  h_id : string;
  h_transaction_type : TransactionType;
  h_status : Status;
  h_amount : Z;
  h_description : string;
  h_metadata : gmap string string;
  h_created_at : Z;
  h_idempotency_key : option string;
  h_asset_code : string;
  h_asset_name : string;
  h_entry_type : EntryType;
  h_balance_before : Z;
  h_balance_after : Z }.

(** *** The statements issued, in order. *)
Inductive Event :=
| EConnect
| ERelease
| EBegin
| ECommit
| ERollback
| ESelectWallet (userId assetCode : string)
| ESelectWalletsForUpdate (ids : list string)
| ESelectIdempotency (key : string)
| ESelectIdempotencyAnyAge (key : string)
| EInsertIdempotency (key : string)
| EUpdateWallet (id : string) (balance : Z)
| EInsertTransaction (id : string)
| EInsertLedgerEntry (txn wallet : string) (ty : EntryType)
| ESelectBalances (userId : string) (assetCode : option string)
| ESelectHistory (userId : string) (assetCode : option string) (limit offset : Z).

(** *** The world a request runs in. *)
Record World := {
  store : Store;
  snapshot : option Store;        (* the tables at BEGIN, inside a transaction *)
  now : Z;                        (* NOW() and new Date(), in seconds *)
  uuid_source : nat -> string;    (* what uuidv4() returns, call after call *)
  uuid_used : nat;
  log : list Event }.

Definition with_store (s : Store) (w : World) : World :=
  {| store := s; snapshot := snapshot w; now := now w;
     uuid_source := uuid_source w; uuid_used := uuid_used w; log := log w |}.

Definition with_snapshot (o : option Store) (w : World) : World :=
  {| store := store w; snapshot := o; now := now w;
     uuid_source := uuid_source w; uuid_used := uuid_used w; log := log w |}.

Definition with_log (l : list Event) (w : World) : World :=
  {| store := store w; snapshot := snapshot w; now := now w;
     uuid_source := uuid_source w; uuid_used := uuid_used w; log := l |}.

Definition with_uuid_used (n : nat) (w : World) : World :=
  {| store := store w; snapshot := snapshot w; now := now w;
     uuid_source := uuid_source w; uuid_used := n; log := log w |}.

(** *** Computations that read and write the world and may throw. *)
Inductive Outcome (A : Type) :=
| Return (a : A)
| Throw (e : Error).
Arguments Return {A} a.
Arguments Throw {A} e.

Definition M (A : Type) : Type := World -> Outcome A * World.

Definition ret {A} (a : A) : M A := fun w => (Return a, w).

Definition throw {A} (e : Error) : M A := fun w => (Throw e, w).

Definition bind {A B} (m : M A) (k : A -> M B) : M B :=
  fun w =>
    match m w with
    | (Return a, w') => k a w'
    | (Throw e, w') => (Throw e, w')
    end.

(** [try { m } catch (e) { h e }]. *)
Definition try_catch {A} (m : M A) (h : Error -> M A) : M A :=
  fun w =>
    match m w with
    | (Return a, w') => (Return a, w')
    | (Throw e, w') => h e w'
    end.

(** [try { m } finally { f }]. *)
Definition finally {A} (m : M A) (f : M unit) : M A :=
  fun w =>
    match m w with
    | (r, w') =>
        match f w' with
        | (Return _, w'') => (r, w'')
        | (Throw e, w'') => (Throw e, w'')
        end
    end.

Definition get_store : M Store := fun w => (Return (store w), w).
Definition put_store (s : Store) : M unit := fun w => (Return tt, with_store s w).
Definition get_now : M Z := fun w => (Return (now w), w).
Definition emit (e : Event) : M unit :=
  fun w => (Return tt, with_log (log w ++ [e]) w).

End Model.

Declare Scope db_scope.
Delimit Scope db_scope with db.
Notation "'let*' x ':=' m 'in' k" := (Model.bind m (fun x => k))
  (at level 10, x name, m at level 100, k at level 200) : db_scope.
Notation "m ';;' k" := (Model.bind m (fun _ => k))
  (at level 100, k at level 200, right associativity) : db_scope.

(** ** src/config/db.js, and the statements sent through it *)
Module Db.
Import Errors Model.
Local Open Scope db_scope.

(** BIGINT columns. *)
Definition bigint_min : Z := - 2 ^ 63.
Definition bigint_max : Z := 2 ^ 63 - 1.
Definition in_bigint (z : Z) : bool := (bigint_min <=? z) && (z <=? bigint_max).

(** *** Queries on wallets *)

(** [FROM wallets w JOIN asset_types at ON w.asset_type_id = at.id]. *)
Definition join_asset (s : Store) (kv : string * Wallet) : option WalletRow :=
  match asset_types s !! w_asset_type_id kv.2 with
  | Some a =>
      Some {| wr_id := kv.1; wr_user_id := w_user_id kv.2;
              wr_balance := w_balance kv.2;
              wr_allow_negative := w_allow_negative kv.2;
              wr_version := w_version kv.2;
              wr_asset_type_id := w_asset_type_id kv.2;
              wr_asset_code := at_code a; wr_asset_name := at_name a;
              wr_updated_at := w_updated_at kv.2 |}
  | None => None
  end.

Definition wallet_rows (s : Store) : list WalletRow :=
  omap (join_asset s) (map_to_list (wallets s)).

(** [ORDER BY w.id ASC]. *)
Definition by_id : relation WalletRow :=
  fun r1 r2 => String.le (wr_id r1) (wr_id r2).
#[global] Instance by_id_dec : RelDecision by_id.
Proof. intros r1 r2. unfold by_id. apply _. Defined.

(** [ORDER BY at.code]. *)
Definition by_code : relation WalletRow :=
  fun r1 r2 => String.le (wr_asset_code r1) (wr_asset_code r2).
#[global] Instance by_code_dec : RelDecision by_code.
Proof. intros r1 r2. unfold by_code. apply _. Defined.

(** The optional condition [AND at.code = $2]. *)
Definition code_matches (assetCode : option string) (code : string) : Prop :=
  match assetCode with
  | Some c => code = c
  | None => True
  end.
#[global] Instance code_matches_dec o c : Decision (code_matches o c).
Proof. destruct o; simpl; apply _. Defined.

(** [WHERE w.user_id = $1 AND at.code = $2]. *)
Definition select_wallet (userId assetCode : string) : M (list WalletRow) :=
  emit (ESelectWallet userId assetCode) ;;
  let* s := get_store in
  ret (filter (fun r => wr_user_id r = userId /\ wr_asset_code r = assetCode)
         (wallet_rows s)).

(** [WHERE w.id = ANY($1) ORDER BY w.id ASC FOR UPDATE]. *)
Definition select_wallets_for_update (ids : list string) : M (list WalletRow) :=
  emit (ESelectWalletsForUpdate ids) ;;
  let* s := get_store in
  ret (merge_sort by_id (filter (fun r => wr_id r ∈ ids) (wallet_rows s))).

(** [WHERE w.user_id = $1 [AND at.code = $2] ORDER BY at.code]. *)
Definition select_balances (userId : string) (assetCode : option string)
  : M (list WalletRow) :=
  emit (ESelectBalances userId assetCode) ;;
  let* s := get_store in
  ret (merge_sort by_code
         (filter (fun r => wr_user_id r = userId /\
                           code_matches assetCode (wr_asset_code r))
            (wallet_rows s))).

(** [UPDATE wallets SET balance = $1, version = version + 1 WHERE id = $2],
    under the column type, the constraint [chk_wallet_balance] and the
    trigger [trg_wallet_updated]. *)
Definition update_wallet_balance (balance : Z) (id : string) : M unit :=
  emit (EUpdateWallet id balance) ;;
  let* s := get_store in
  let* t := get_now in
  if negb (in_bigint balance)
  then throw (Pg "22003" "value out of range for type bigint")
  else
    match wallets s !! id with
    | None => ret tt
    | Some w =>
        if negb (w_allow_negative w) && (balance <? 0)
        then throw (Pg "23514" "violates check constraint chk_wallet_balance")
        else
          put_store
            {| asset_types := asset_types s;
               wallets :=
                 <[id := {| w_user_id := w_user_id w;
                            w_asset_type_id := w_asset_type_id w;
                            w_balance := balance;
                            w_allow_negative := w_allow_negative w;
                            w_version := w_version w + 1;
                            w_updated_at := t |}]> (wallets s);
               transactions := transactions s;
               ledger_entries := ledger_entries s;
               idempotency_store := idempotency_store s |}
    end.

(** *** Transactions and ledger entries *)

Definition key_taken (k : option string) (ts : list Transaction) : bool :=
  match k with
  | Some key => bool_decide (Some key ∈ t_idempotency_key <$> ts)
  | None => false
  end.

Definition key_too_long (k : option string) : bool :=
  match k with
  | Some key => (255 <? Z.of_nat (String.length key))
  | None => false
  end.

(** [INSERT INTO transactions (...) VALUES ($1, $2, $3, 'COMPLETED', ...)]:
    the column types first, then the CHECK on the amount, the unique indexes
    on [id] and [idempotency_key], and the foreign keys. *)
Definition insert_transaction (id : string) (key : option string)
    (ty : TransactionType) (source dest : string) (assetTypeId amount : Z)
    (description : string) (metadata : gmap string string) : M unit :=
  emit (EInsertTransaction id) ;;
  let* s := get_store in
  let* t := get_now in
  if key_too_long key
  then throw (Pg "22001" "value too long for type character varying(255)")
  else if negb (in_bigint amount)
  then throw (Pg "22003" "value out of range for type bigint")
  else if amount <=? 0
  then throw (Pg "23514" "violates check constraint transactions_amount_check")
  else if bool_decide (id ∈ t_id <$> transactions s) || key_taken key (transactions s)
  then throw (Pg "23505" "duplicate key value violates unique constraint")
  else if negb (bool_decide (is_Some (wallets s !! source)) &&
                bool_decide (is_Some (wallets s !! dest)) &&
                bool_decide (is_Some (asset_types s !! assetTypeId)))
  then throw (Pg "23503" "violates foreign key constraint")
  else
    put_store
      {| asset_types := asset_types s;
         wallets := wallets s;
         transactions :=
           transactions s ++
             [{| t_id := id; t_idempotency_key := key;
                 t_transaction_type := ty; t_status := COMPLETED;
                 t_source_wallet_id := source; t_dest_wallet_id := dest;
                 t_asset_type_id := assetTypeId; t_amount := amount;
                 t_description := description; t_metadata := metadata;
                 t_created_at := t |}];
         ledger_entries := ledger_entries s;
         idempotency_store := idempotency_store s |}.

(** [INSERT INTO ledger_entries (...) VALUES ($1, $2, 'DEBIT' | 'CREDIT', ...)]. *)
Definition insert_ledger_entry (txn wallet : string) (ty : EntryType)
    (amount before after : Z) : M unit :=
  emit (EInsertLedgerEntry txn wallet ty) ;;
  let* s := get_store in
  let* t := get_now in
  if negb (in_bigint amount && in_bigint before && in_bigint after)
  then throw (Pg "22003" "value out of range for type bigint")
  else if amount <=? 0
  then throw (Pg "23514" "violates check constraint ledger_entries_amount_check")
  else if negb (bool_decide (txn ∈ t_id <$> transactions s) &&
                bool_decide (is_Some (wallets s !! wallet)))
  then throw (Pg "23503" "violates foreign key constraint")
  else
    put_store
      {| asset_types := asset_types s;
         wallets := wallets s;
         transactions := transactions s;
         ledger_entries :=
           ledger_entries s ++
             [{| le_transaction_id := txn; le_wallet_id := wallet;
                 le_entry_type := ty; le_amount := amount;
                 le_balance_before := before; le_balance_after := after;
                 le_created_at := t |}];
         idempotency_store := idempotency_store s |}.

(** *** The idempotency store *)

(** [SELECT response, status_code FROM idempotency_store
     WHERE key = $1 AND expires_at > NOW()]. *)
Definition select_idempotency (key : string) : M (list IdempotencyRow) :=
  emit (ESelectIdempotency key) ;;
  let* s := get_store in
  let* t := get_now in
  ret (match idempotency_store s !! key with
       | Some row => if t <? i_expires_at row then [row] else []
       | None => []
       end).

(** The same query without the condition on [expires_at]. *)
Definition select_idempotency_any_age (key : string) : M (list IdempotencyRow) :=
  emit (ESelectIdempotencyAnyAge key) ;;
  let* s := get_store in
  ret (match idempotency_store s !! key with
       | Some row => [row]
       | None => []
       end).

Definition ttl : Z := 24 * 60 * 60.

(** [INSERT INTO idempotency_store (key, response, status_code)
     VALUES ($1, $2, $3) ON CONFLICT (key) DO NOTHING]. *)
Definition insert_idempotency (key : string) (response : TransferResult)
    (statusCode : Z) : M unit :=
  emit (EInsertIdempotency key) ;;
  let* s := get_store in
  let* t := get_now in
  if 255 <? Z.of_nat (String.length key)
  then throw (Pg "22001" "value too long for type character varying(255)")
  else
    match idempotency_store s !! key with
    | Some _ => ret tt
    | None =>
        put_store
          {| asset_types := asset_types s;
             wallets := wallets s;
             transactions := transactions s;
             ledger_entries := ledger_entries s;
             idempotency_store :=
               <[key := {| i_response := response; i_status_code := statusCode;
                           i_created_at := t; i_expires_at := t + ttl |}]>
                 (idempotency_store s) |}
    end.

(** *** History *)

(** [ORDER BY t.created_at DESC]. *)
Definition newest_first : relation HistoryRow :=
  fun r1 r2 => h_created_at r2 <= h_created_at r1.
#[global] Instance newest_first_dec : RelDecision newest_first.
Proof. intros r1 r2. unfold newest_first. apply _. Defined.

(** One transaction joined with its asset type, its ledger entries and their
    wallets, restricted to the wallets of the user. *)
Definition history_of (s : Store) (userId : string) (assetCode : option string)
    (t : Transaction) : list HistoryRow :=
  match asset_types s !! t_asset_type_id t with
  | None => []
  | Some a =>
      if bool_decide (code_matches assetCode (at_code a))
      then
        omap (fun le =>
                if bool_decide (le_transaction_id le = t_id t)
                then
                  match wallets s !! le_wallet_id le with
                  | Some w =>
                      if bool_decide (w_user_id w = userId)
                      then Some {| h_id := t_id t;
                                   h_transaction_type := t_transaction_type t;
                                   h_status := t_status t;
                                   h_amount := t_amount t;
                                   h_description := t_description t;
                                   h_metadata := t_metadata t;
                                   h_created_at := t_created_at t;
                                   h_idempotency_key := t_idempotency_key t;
                                   h_asset_code := at_code a;
                                   h_asset_name := at_name a;
                                   h_entry_type := le_entry_type le;
                                   h_balance_before := le_balance_before le;
                                   h_balance_after := le_balance_after le |}
                      else None
                  | None => None
                  end
                else None)
          (ledger_entries s)
      else []
  end.

(** [... WHERE w.user_id = $1 [AND at.code = $2]
     ORDER BY t.created_at DESC LIMIT $n OFFSET $m]; the store refuses a
    negative LIMIT or OFFSET. *)
Definition select_history (userId : string) (assetCode : option string)
    (limit offset : Z) : M (list HistoryRow) :=
  emit (ESelectHistory userId assetCode limit offset) ;;
  let* s := get_store in
  if limit <? 0
  then throw (Pg "2201W" "LIMIT must not be negative")
  else if offset <? 0
  then throw (Pg "2201X" "OFFSET must not be negative")
  else
    ret (take (Z.to_nat limit)
           (drop (Z.to_nat offset)
              (merge_sort newest_first
                 (mbind (history_of s userId assetCode) (transactions s))))).

(** *** Transactions *)

Definition connect : M unit := emit EConnect.
Definition release : M unit := emit ERelease.

Definition begin : M unit :=
  emit EBegin ;;
  fun w => (Return tt, with_snapshot (Some (store w)) w).

Definition commit : M unit :=
  emit ECommit ;;
  fun w => (Return tt, with_snapshot None w).

Definition rollback : M unit :=
  emit ERollback ;;
  fun w =>
    match snapshot w with
    | Some s => (Return tt, with_snapshot None (with_store s w))
    | None => (Return tt, w)
    end.

(** [withTransaction(fn)]. *)
Definition withTransaction {A} (fn : M A) : M A :=
  connect ;;
  finally
    (try_catch
       (begin ;;
        let* result := fn in
        commit ;;
        ret result)
       (fun error => rollback ;; throw error))
    release.

End Db.

(** ** src/services/walletService.js *)
Module WalletService.
Import Js Errors Model Db.
Local Open Scope db_scope.

(** [SYSTEM_ACCOUNTS]. *)
Definition TREASURY : string := "00000000-0000-0000-0000-000000000001".
Definition REVENUE : string := "00000000-0000-0000-0000-000000000002".

Definition findWallet (userId assetCode : string) : M WalletRow :=
  let* rows := select_wallet userId assetCode in
  match rows with
  | [] =>
      throw (App (NotFoundError "Wallet"
                    ("user=" +:+ userId +:+ ", asset=" +:+ assetCode)))
  | row :: _ => ret row
  end.

(** [walletMap[row.id] = row] for every row, in order. *)
Definition to_wallet_map (rows : list WalletRow) : gmap string WalletRow :=
  foldl (fun walletMap row => <[wr_id row := row]> walletMap) ∅ rows.

Definition lockWalletsInOrder (walletIds : list string)
  : M (gmap string WalletRow) :=
  let sortedIds := merge_sort String.le walletIds in
  let* rows := select_wallets_for_update sortedIds in
  if bool_decide (length rows ≠ length walletIds)
  then
    throw (App (NotFoundError "Wallet"
                  ("One or more wallets not found in: "
                     +:+ String.concat ", " walletIds)))
  else ret (to_wallet_map rows).

Definition checkIdempotencyKey (key : option string)
  : M (option IdempotencyRow) :=
  if negb (str_truthy key) then ret None
  else
    let* rows := select_idempotency (default "" key) in
    ret (head rows).

Definition storeIdempotencyKey (key : option string)
    (response : TransferResult) (statusCode : Z) : M unit :=
  if negb (str_truthy key) then ret tt
  else insert_idempotency (default "" key) response statusCode.

(** [uuidv4()]. *)
Definition uuidv4 : M string :=
  fun w =>
    (Return (uuid_source w (uuid_used w)), with_uuid_used (S (uuid_used w)) w).

Record TransferArgs := {
  sourceWalletId : string;
  destWalletId : string;
  amount : Z;
  assetTypeId : Z;
  transactionType : TransactionType;
  description : string;
  metadata : option (gmap string string);
  idempotencyKey : option string }.

Definition executeTransfer (a : TransferArgs) : M TransferResult :=
  (* 1. lock both wallets in sorted order *)
  let* wallets := lockWalletsInOrder [sourceWalletId a; destWalletId a] in
  match wallets !! sourceWalletId a with
  | None => throw (TypeError "Cannot read properties of undefined")
  | Some sourceWallet =>
      (* 2. validate sufficient balance *)
      if negb (wr_allow_negative sourceWallet)
         && (wr_balance sourceWallet <? amount a)
      then
        throw (App (InsufficientBalanceError (sourceWalletId a) (amount a)
                      (wr_balance sourceWallet)))
      else
        (* 3. calculate new balances *)
        let sourceBalanceBefore := wr_balance sourceWallet in
        match wallets !! destWalletId a with
        | None => throw (TypeError "Cannot read properties of undefined")
        | Some destWallet =>
            let destBalanceBefore := wr_balance destWallet in
            let sourceBalanceAfter := sourceBalanceBefore - amount a in
            let destBalanceAfter := destBalanceBefore + amount a in
            (* 4. debit the source, 5. credit the destination *)
            update_wallet_balance sourceBalanceAfter (sourceWalletId a) ;;
            update_wallet_balance destBalanceAfter (destWalletId a) ;;
            (* 6. the transaction record *)
            let* txnId := uuidv4 in
            insert_transaction txnId (idempotencyKey a) (transactionType a)
              (sourceWalletId a) (destWalletId a) (assetTypeId a) (amount a)
              (description a) (default ∅ (metadata a)) ;;
            (* 7. the two ledger entries *)
            insert_ledger_entry txnId (sourceWalletId a) DEBIT (amount a)
              sourceBalanceBefore sourceBalanceAfter ;;
            insert_ledger_entry txnId (destWalletId a) CREDIT (amount a)
              destBalanceBefore destBalanceAfter ;;
            let* timestamp := get_now in
            ret {| r_transactionId := txnId;
                   r_transactionType := transactionType a;
                   r_sourceWallet :=
                     {| wc_id := sourceWalletId a;
                        wc_balanceBefore := sourceBalanceBefore;
                        wc_balanceAfter := sourceBalanceAfter |};
                   r_destWallet :=
                     {| wc_id := destWalletId a;
                        wc_balanceBefore := destBalanceBefore;
                        wc_balanceAfter := destBalanceAfter |};
                   r_amount := amount a;
                   r_description := description a;
                   r_timestamp := timestamp |}
        end
  end.

(** *** Public API *)

(** What the three operations return: the fresh result of the transfer, or
    [{ ...cached.response, idempotent: true }]. *)
Inductive OpResult :=
| Fresh (result : TransferResult)
| Replay (response : TransferResult).

Definition idempotent (r : OpResult) : bool :=
  match r with Fresh _ => false | Replay _ => true end.

Definition payload (r : OpResult) : TransferResult :=
  match r with Fresh x => x | Replay x => x end.

(** The value of a Number that passed [Number.isInteger]. *)
Definition number_value (v : JsValue) : Z :=
  match v with JInt z => z | _ => 0 end.

(** [!Number.isInteger(amount) || amount <= 0]. *)
Definition bad_amount (amount : JsValue) : bool :=
  negb (isInteger amount) || (number_value amount <=? 0).

(** [description || d]. *)
Definition description_or (description : option string) (d : string) : string :=
  if str_truthy description then default "" description else d.

(** [{ ...metadata, paymentFlow: flow }]. *)
Definition with_flow (metadata : option (gmap string string)) (flow : string)
  : option (gmap string string) :=
  Some (<["paymentFlow" := flow]> (default ∅ metadata)).

Definition topUp (userId assetCode : option string) (amount : JsValue)
    (idempotencyKey description : option string)
    (metadata : option (gmap string string)) : M OpResult :=
  if negb (str_truthy userId)
  then throw (App (ValidationError "userId is required"))
  else if negb (str_truthy assetCode)
  then throw (App (ValidationError "assetCode is required"))
  else if bad_amount amount
  then throw (App (ValidationError "amount must be a positive integer"))
  else
    let userId := default "" userId in
    let assetCode := default "" assetCode in
    let amount := number_value amount in
    withTransaction
      (let* cached := checkIdempotencyKey idempotencyKey in
       match cached with
       | Some c => ret (Replay (i_response c))
       | None =>
           let* userWallet := findWallet userId assetCode in
           let* treasuryWallet := findWallet TREASURY assetCode in
           let* result :=
             executeTransfer
               {| sourceWalletId := wr_id treasuryWallet;
                  destWalletId := wr_id userWallet;
                  amount := amount;
                  assetTypeId := wr_asset_type_id userWallet;
                  transactionType := TOPUP;
                  description :=
                    description_or description
                      ("Top-up of " +:+ pretty amount +:+ " " +:+ assetCode);
                  metadata := with_flow metadata "topup";
                  idempotencyKey := idempotencyKey |} in
           storeIdempotencyKey idempotencyKey result 200 ;;
           ret (Fresh result)
       end).

Definition issueBonus (userId assetCode : option string) (amount : JsValue)
    (idempotencyKey description : option string)
    (metadata : option (gmap string string)) : M OpResult :=
  if negb (str_truthy userId)
  then throw (App (ValidationError "userId is required"))
  else if negb (str_truthy assetCode)
  then throw (App (ValidationError "assetCode is required"))
  else if bad_amount amount
  then throw (App (ValidationError "amount must be a positive integer"))
  else
    let userId := default "" userId in
    let assetCode := default "" assetCode in
    let amount := number_value amount in
    withTransaction
      (let* cached := checkIdempotencyKey idempotencyKey in
       match cached with
       | Some c => ret (Replay (i_response c))
       | None =>
           let* userWallet := findWallet userId assetCode in
           let* treasuryWallet := findWallet TREASURY assetCode in
           let* result :=
             executeTransfer
               {| sourceWalletId := wr_id treasuryWallet;
                  destWalletId := wr_id userWallet;
                  amount := amount;
                  assetTypeId := wr_asset_type_id userWallet;
                  transactionType := BONUS;
                  description :=
                    description_or description
                      ("Bonus of " +:+ pretty amount +:+ " " +:+ assetCode);
                  metadata := with_flow metadata "bonus";
                  idempotencyKey := idempotencyKey |} in
           storeIdempotencyKey idempotencyKey result 200 ;;
           ret (Fresh result)
       end).

Definition purchase (userId assetCode : option string) (amount : JsValue)
    (idempotencyKey description : option string)
    (metadata : option (gmap string string)) : M OpResult :=
  if negb (str_truthy userId)
  then throw (App (ValidationError "userId is required"))
  else if negb (str_truthy assetCode)
  then throw (App (ValidationError "assetCode is required"))
  else if bad_amount amount
  then throw (App (ValidationError "amount must be a positive integer"))
  else
    let userId := default "" userId in
    let assetCode := default "" assetCode in
    let amount := number_value amount in
    withTransaction
      (let* cached := checkIdempotencyKey idempotencyKey in
       match cached with
       | Some c => ret (Replay (i_response c))
       | None =>
           let* userWallet := findWallet userId assetCode in
           let* revenueWallet := findWallet REVENUE assetCode in
           let* result :=
             executeTransfer
               {| sourceWalletId := wr_id userWallet;
                  destWalletId := wr_id revenueWallet;
                  amount := amount;
                  assetTypeId := wr_asset_type_id userWallet;
                  transactionType := PURCHASE;
                  description :=
                    description_or description
                      ("Purchase of " +:+ pretty amount +:+ " " +:+ assetCode);
                  metadata := with_flow metadata "purchase";
                  idempotencyKey := idempotencyKey |} in
           storeIdempotencyKey idempotencyKey result 200 ;;
           ret (Fresh result)
       end).

(** The objects [getBalance] returns. *)
Record Balance := {
  b_walletId : string;
  b_assetCode : string;
  b_assetName : string;
  b_balance : Z;
  b_updatedAt : Z }.

Definition to_balance (row : WalletRow) : Balance :=
  {| b_walletId := wr_id row;
     b_assetCode := wr_asset_code row;
     b_assetName := wr_asset_name row;
     b_balance := wr_balance row;
     b_updatedAt := wr_updated_at row |}.

Definition getBalance (userId assetCode : option string) : M (list Balance) :=
  if negb (str_truthy userId)
  then throw (App (ValidationError "userId is required"))
  else
    let userId := default "" userId in
    let* rows :=
      select_balances userId (if str_truthy assetCode then assetCode else None) in
    if bool_decide (length rows = 0%nat)
    then throw (App (NotFoundError "Wallet" userId))
    else ret (to_balance <$> rows).

(** The objects [getTransactions] returns. *)
Record TransactionView := {
  v_transactionId : string;
  v_type : TransactionType;
  v_status : Status;
  v_entryType : EntryType;
  v_amount : Z;
  v_assetCode : string;
  v_assetName : string;
  v_balanceBefore : Z;
  v_balanceAfter : Z;
  v_description : string;
  v_metadata : gmap string string;
  v_idempotencyKey : option string;
  v_createdAt : Z }.

Definition to_view (row : HistoryRow) : TransactionView :=
  {| v_transactionId := h_id row;
     v_type := h_transaction_type row;
     v_status := h_status row;
     v_entryType := h_entry_type row;
     v_amount := h_amount row;
     v_assetCode := h_asset_code row;
     v_assetName := h_asset_name row;
     v_balanceBefore := h_balance_before row;
     v_balanceAfter := h_balance_after row;
     v_description := h_description row;
     v_metadata := h_metadata row;
     v_idempotencyKey := h_idempotency_key row;
     v_createdAt := h_created_at row |}.

(** [getTransactions(userId, assetCode, { limit = 20, offset = 0 } = {})];
    [None] is a property left out. *)
Definition getTransactions (userId assetCode : option string)
    (limit offset : option Z) : M (list TransactionView) :=
  let limit := default 20 limit in
  let offset := default 0 offset in
  if negb (str_truthy userId)
  then throw (App (ValidationError "userId is required"))
  else
    let userId := default "" userId in
    let* rows :=
      select_history userId (if str_truthy assetCode then assetCode else None)
        limit offset in
    ret (to_view <$> rows).

End WalletService.

(** ** Requests and responses of the HTTP layer *)
Module Http.
Import Js Errors Model WalletService.

(** The JSON body of the mutating endpoints. *)
Record Body := {
  body_userId : option string;
  body_assetCode : option string;
  body_amount : JsValue;
  body_description : option string;
  body_metadata : option (gmap string string);
  body_idempotencyKey : JsValue }.

Record Request := {
  header_idempotency_key : option string;   (* req.headers['idempotency-key'] *)
  req_body : option Body;
  param_userId : string;                    (* req.params.userId *)
  query_assetCode : option string;
  query_limit : option string;
  query_offset : option string;
  req_idempotencyKey : option string }.     (* set by the middleware *)

Definition set_idempotencyKey (k : string) (req : Request) : Request :=
  {| header_idempotency_key := header_idempotency_key req;
     req_body := req_body req;
     param_userId := param_userId req;
     query_assetCode := query_assetCode req;
     query_limit := query_limit req;
     query_offset := query_offset req;
     req_idempotencyKey := Some k |}.

(** [req.body?.idempotencyKey]. *)
Definition body_key (req : Request) : JsValue :=
  match req_body req with
  | Some b => body_idempotencyKey b
  | None => JUndefined
  end.

(** The [error] object of a failure response; a field left out is [None]
    (or [false] for [retryable]). *)
Record ErrorInfo := {
  e_code : string;
  e_message : string;
  e_walletId : option string;
  e_requested : option Z;
  e_available : option Z;
  e_retryable : bool }.

Definition plain_error (code message : string) : ErrorInfo :=
  {| e_code := code; e_message := message; e_walletId := None;
     e_requested := None; e_available := None; e_retryable := false |}.

Definition retryable_error (code message : string) : ErrorInfo :=
  {| e_code := code; e_message := message; e_walletId := None;
     e_requested := None; e_available := None; e_retryable := true |}.

Record Pagination := { p_limit : Z; p_offset : Z; p_count : Z }.

Inductive Payload :=
| PTransfer (result : OpResult)
| PCached (response : TransferResult)
| PBalances (userId : string) (balances : list Balance)
| PTransactions (userId : string) (transactions : list TransactionView)
    (pagination : Pagination).

Inductive ResBody :=
| Success (data : Payload) (note : option string)
| Failure (error : ErrorInfo).

Record Response := { status : Z; body : ResBody }.

End Http.

(** ** src/middleware/idempotency.js *)
Module Idempotency.
Import Js Http.

(** [idempotencyKey.length] of a string. *)
Definition js_length (v : JsValue) : Z :=
  match v with JStr s => Z.of_nat (String.length s) | _ => 0 end.

Definition string_of (v : JsValue) : string :=
  match v with JStr s => s | _ => "" end.

(** The middleware either answers, or calls [next()] with the request. *)
Definition idempotencyMiddleware (req : Request) : Response + Request :=
  let idempotencyKey :=
    js_or (of_opt_string (header_idempotency_key req)) (body_key req) in
  if truthy idempotencyKey
  then
    if negb (is_string idempotencyKey) || (255 <? js_length idempotencyKey)
    then
      inl {| status := 400;
             body := Failure
               (plain_error "VALIDATION_ERROR"
                  "Idempotency-Key must be a string with max 255 characters") |}
    else inr (set_idempotencyKey (string_of idempotencyKey) req)
  else inr req.

End Idempotency.

(** ** src/middleware/errorHandler.js *)
Module ErrorHandler.
Import Js Errors Model Db Http.
Local Open Scope db_scope.

Section handler.

(** [process.env.NODE_ENV === 'production']. *)
Variable production : bool.

(** [query] of src/config/db.js applied to the statement of the handler,
    [SELECT response, status_code FROM idempotency_store WHERE key = $1]; it
    runs outside any transaction and may fail. *)
Variable query : JsValue -> M (list IdempotencyRow).

Definition duplicate_transaction : Response :=
  {| status := 409;
     body := Failure
       (plain_error "DUPLICATE_TRANSACTION"
          "This transaction has already been processed") |}.

(** [err.message]. *)
Definition error_message (err : Error) : string :=
  match err with
  | App e => message e
  | Pg _ m => m
  | TypeError m => m
  end.

(** The fields [err.walletId && ...], [err.requested && ...] and
    [err.available !== undefined && ...]. *)
Definition app_error_info (e : AppError) : ErrorInfo :=
  match e with
  | InsufficientBalanceError w r a =>
      {| e_code := code e; e_message := message e;
         e_walletId := if str_truthy (Some w) then Some w else None;
         e_requested := if truthy (JInt r) then Some r else None;
         e_available := Some a;
         e_retryable := false |}
  | _ => plain_error (code e) (message e)
  end.

Definition errorHandler (err : Error) (req : Request) : M Response :=
  match err with
  | App e => ret {| status := statusCode e; body := Failure (app_error_info e) |}
  | _ =>
      let code := match err with Pg c _ => Some c | _ => None end in
      if bool_decide (code = Some "23505")
      then
        let idempotencyKey :=
          js_or (of_opt_string (req_idempotencyKey req)) (body_key req) in
        if truthy idempotencyKey
        then
          try_catch
            (let* rows := query idempotencyKey in
             match rows with
             | row :: _ =>
                 ret {| status := 200;
                        body := Success (PCached (i_response row))
                          (Some "Idempotent replay - original response returned") |}
             | [] => ret duplicate_transaction
             end)
            (fun _ => ret duplicate_transaction)
        else ret duplicate_transaction
      else if bool_decide (code = Some "23514")
      then
        ret {| status := 422;
               body := Failure
                 (plain_error "CONSTRAINT_VIOLATION"
                    "Transaction would violate balance constraints") |}
      else if bool_decide (code = Some "40P01")
      then
        ret {| status := 503;
               body := Failure
                 (retryable_error "DEADLOCK_DETECTED"
                    "Temporary conflict detected, please retry the request") |}
      else if bool_decide (code = Some "40001")
      then
        ret {| status := 503;
               body := Failure
                 (retryable_error "SERIALIZATION_FAILURE"
                    "Concurrent modification detected, please retry") |}
      else
        ret {| status := 500;
               body := Failure
                 (plain_error "INTERNAL_ERROR"
                    (if production then "An internal error occurred"
                     else error_message err)) |}
  end.

End handler.

End ErrorHandler.

(** ** src/routes/wallet.js *)
Module Routes.
Import Js Errors Model Db WalletService Http Idempotency.
Local Open Scope db_scope.

(** A route either answers or hands an error to [next]. *)
Inductive RouteResult :=
| Responded (res : Response)
| Next (error : Error).

Definition replay_note : string :=
  "Idempotent replay - original response returned".

(** The answer of the three mutating endpoints. *)
Definition transfer_response (result : OpResult) : Response :=
  {| status := if idempotent result then 200 else 201;
     body := Success (PTransfer result)
               (if idempotent result then Some replay_note else None) |}.

Definition destructure_failure : Error :=
  TypeError "Cannot destructure property of req.body as it is undefined".

(** [try { ... } catch (error) { next(error) }]. *)
Definition guarded (m : M Response) : M RouteResult :=
  try_catch (let* res := m in ret (Responded res))
            (fun error => ret (Next error)).

Definition post_topup (req : Request) : M RouteResult :=
  guarded
    match req_body req with
    | None => throw destructure_failure
    | Some b =>
        let* result :=
          topUp (body_userId b) (body_assetCode b) (body_amount b)
            (req_idempotencyKey req) (body_description b) (body_metadata b) in
        ret (transfer_response result)
    end.

Definition post_bonus (req : Request) : M RouteResult :=
  guarded
    match req_body req with
    | None => throw destructure_failure
    | Some b =>
        let* result :=
          issueBonus (body_userId b) (body_assetCode b) (body_amount b)
            (req_idempotencyKey req) (body_description b) (body_metadata b) in
        ret (transfer_response result)
    end.

Definition post_purchase (req : Request) : M RouteResult :=
  guarded
    match req_body req with
    | None => throw destructure_failure
    | Some b =>
        let* result :=
          purchase (body_userId b) (body_assetCode b) (body_amount b)
            (req_idempotencyKey req) (body_description b) (body_metadata b) in
        ret (transfer_response result)
    end.

Definition get_balance (req : Request) : M RouteResult :=
  guarded
    (let userId := param_userId req in
     let* balances := getBalance (Some userId) (query_assetCode req) in
     ret {| status := 200;
            body := Success (PBalances userId balances) None |}).

(** [Math.min(parseInt(req.query.limit) || 20, 100)]. *)
Definition effective_limit (req : Request) : Z :=
  Z.min (num_or (parseInt_opt (query_limit req)) 20) 100.

(** [parseInt(req.query.offset) || 0]. *)
Definition effective_offset (req : Request) : Z :=
  num_or (parseInt_opt (query_offset req)) 0.

Definition get_transactions (req : Request) : M RouteResult :=
  guarded
    (let userId := param_userId req in
     let limit := effective_limit req in
     let offset := effective_offset req in
     let* transactions :=
       getTransactions (Some userId) (query_assetCode req)
         (Some limit) (Some offset) in
     ret {| status := 200;
            body := Success
              (PTransactions userId transactions
                 {| p_limit := limit; p_offset := offset;
                    p_count := Z.of_nat (length transactions) |})
              None |}).

(** [router.use(idempotencyMiddleware)] in front of a route. *)
Definition with_middleware (route : Request -> M RouteResult) (req : Request)
  : M RouteResult :=
  match idempotencyMiddleware req with
  | inl res => ret (Responded res)
  | inr req' => route req'
  end.

End Routes.

(** ** Notions the statements below are phrased with *)
Module Notions.
Import Js Errors Model Db WalletService.
Local Open Scope db_scope.

(** The wallet with a given id, joined with its asset type. *)
Definition wallet_row (s : Store) (id : string) : option WalletRow :=
  match wallets s !! id with
  | Some wl => join_asset s (id, wl)
  | None => None
  end.

(** [id] is the wallet of account [user] for the asset with code [code]. *)
Definition is_wallet_of (s : Store) (id user code : string) : Prop :=
  exists row, wallet_row s id = Some row /\
              wr_user_id row = user /\ wr_asset_code row = code.

(** The sum of [f] over all wallets. *)
Definition sum_wallets (f : Wallet -> Z) (m : gmap string Wallet) : Z :=
  map_fold (fun _ wl acc => f wl + acc) 0 m.

(** The total balance over all wallets. *)
Definition total_balance (s : Store) : Z := sum_wallets w_balance (wallets s).

(** The total balance over the wallets of one asset type. *)
Definition balance_in (asset : Z) (wl : Wallet) : Z :=
  if bool_decide (w_asset_type_id wl = asset) then w_balance wl else 0.

Definition asset_total (asset : Z) (s : Store) : Z :=
  sum_wallets (balance_in asset) (wallets s).

(** The balance of one wallet; 0 for a wallet that does not exist. *)
Definition balance_of (s : Store) (id : string) : Z :=
  match wallets s !! id with
  | Some wl => w_balance wl
  | None => 0
  end.

(** The rows the locking statement returns. *)
Definition locked_rows (s : Store) (ids : list string) : list WalletRow :=
  merge_sort by_id (filter (fun r => wr_id r ∈ ids) (wallet_rows s)).

(** The error [lockWalletsInOrder] throws. *)
Definition lock_not_found (walletIds : list string) : Error :=
  App (NotFoundError "Wallet"
         ("One or more wallets not found in: " +:+ String.concat ", " walletIds)).

(** The world after the locking statement. *)
Definition after_lock (ids : list string) (w : World) : World :=
  with_log (log w ++ [ESelectWalletsForUpdate (merge_sort String.le ids)]) w.

(** The world after one statement: the statement is logged and the tables
    are replaced. *)
Definition step (e : Event) (s : Store) (w : World) : World :=
  with_store s (with_log (log w ++ [e]) w).

(** What the statements do to the tables. *)
Definition set_balance (id : string) (balance t : Z) (s : Store) : Store :=
  match wallets s !! id with
  | Some wl =>
      {| asset_types := asset_types s;
         wallets :=
           <[id := {| w_user_id := w_user_id wl;
                      w_asset_type_id := w_asset_type_id wl;
                      w_balance := balance;
                      w_allow_negative := w_allow_negative wl;
                      w_version := w_version wl + 1;
                      w_updated_at := t |}]> (wallets s);
         transactions := transactions s;
         ledger_entries := ledger_entries s;
         idempotency_store := idempotency_store s |}
  | None => s
  end.

Definition add_transaction (t : Transaction) (s : Store) : Store :=
  {| asset_types := asset_types s;
     wallets := wallets s;
     transactions := transactions s ++ [t];
     ledger_entries := ledger_entries s;
     idempotency_store := idempotency_store s |}.

Definition add_ledger_entry (e : LedgerEntry) (s : Store) : Store :=
  {| asset_types := asset_types s;
     wallets := wallets s;
     transactions := transactions s;
     ledger_entries := ledger_entries s ++ [e];
     idempotency_store := idempotency_store s |}.

(** What no statement changes: the snapshot, the clock and the source of
    identifiers stay, and the log only grows. *)
Definition same_env (w w' : World) : Prop :=
  snapshot w' = snapshot w /\ now w' = now w /\
  uuid_source w' = uuid_source w /\ exists l, log w' = log w ++ l.

(** [m] relates the worlds before and after by [R], whatever its outcome, and
    throws only errors in [E]. *)
Definition sound {A} (R : World -> World -> Prop) (E : Error -> Prop)
    (m : M A) : Prop :=
  forall w o w', m w = (o, w') ->
    R w w' /\ forall e, o = Throw e -> E e.

(** The errors of the Validation kind. *)
Definition is_validation (e : Error) : Prop :=
  exists m, e = App (ValidationError m).

Definition not_validation (e : Error) : Prop := ~ is_validation e.

(** The rows [executeTransfer] inserts. *)
Definition new_transaction (id : string) (key : option string)
    (ty : TransactionType) (src dst : string) (asset amt : Z) (d : string)
    (md : gmap string string) (t : Z) : Transaction :=
  {| t_id := id; t_idempotency_key := key; t_transaction_type := ty;
     t_status := COMPLETED; t_source_wallet_id := src;
     t_dest_wallet_id := dst; t_asset_type_id := asset; t_amount := amt;
     t_description := d; t_metadata := md; t_created_at := t |}.

Definition new_ledger_entry (txn wl : string) (ty : EntryType)
    (amt before after t : Z) : LedgerEntry :=
  {| le_transaction_id := txn; le_wallet_id := wl; le_entry_type := ty;
     le_amount := amt; le_balance_before := before;
     le_balance_after := after; le_created_at := t |}.

Definition transfer_result (a : TransferArgs) (txnId : string)
    (sourceBefore destBefore t : Z) : TransferResult :=
  {| r_transactionId := txnId;
     r_transactionType := transactionType a;
     r_sourceWallet :=
       {| wc_id := sourceWalletId a; wc_balanceBefore := sourceBefore;
          wc_balanceAfter := sourceBefore - amount a |};
     r_destWallet :=
       {| wc_id := destWalletId a; wc_balanceBefore := destBefore;
          wc_balanceAfter := destBefore + amount a |};
     r_amount := amount a;
     r_description := description a;
     r_timestamp := t |}.

(** The tables after a transfer that found the balances [sb] and [db]. *)
Definition transferred (a : TransferArgs) (txnId : string) (sb db t : Z)
    (s : Store) : Store :=
  add_ledger_entry
    (new_ledger_entry txnId (destWalletId a) CREDIT (amount a) db
       (db + amount a) t)
    (add_ledger_entry
       (new_ledger_entry txnId (sourceWalletId a) DEBIT (amount a) sb
          (sb - amount a) t)
       (add_transaction
          (new_transaction txnId (idempotencyKey a) (transactionType a)
             (sourceWalletId a) (destWalletId a) (assetTypeId a) (amount a)
             (description a) (default ∅ (metadata a)) t)
          (set_balance (destWalletId a) (db + amount a) t
             (set_balance (sourceWalletId a) (sb - amount a) t s)))).

Definition debited (wl : Wallet) (amt t : Z) : Wallet :=
  {| w_user_id := w_user_id wl; w_asset_type_id := w_asset_type_id wl;
     w_balance := w_balance wl - amt;
     w_allow_negative := w_allow_negative wl;
     w_version := w_version wl + 1; w_updated_at := t |}.

Definition credited (wl : Wallet) (amt t : Z) : Wallet :=
  {| w_user_id := w_user_id wl; w_asset_type_id := w_asset_type_id wl;
     w_balance := w_balance wl + amt;
     w_allow_negative := w_allow_negative wl;
     w_version := w_version wl + 1; w_updated_at := t |}.

(** The world in which the function passed to [withTransaction] starts. *)
Definition begun (w : World) : World :=
  with_snapshot (Some (store w)) (with_log (log w ++ [EConnect; EBegin]) w).

(** The world after COMMIT and after the connection is released. *)
Definition committed (w : World) : World :=
  with_snapshot None (with_log (log w ++ [ECommit; ERelease]) w).

(** The world after ROLLBACK and after the connection is released. *)
Definition rolled_back (w : World) : World :=
  match snapshot w with
  | Some s =>
      with_snapshot None
        (with_store s (with_log (log w ++ [ERollback; ERelease]) w))
  | None => with_log (log w ++ [ERollback; ERelease]) w
  end.

(** *** The common shape of [topUp], [issueBonus] and [purchase] *)

Record Flow := {
  f_system : string;            (* the system account on the other side *)
  f_user_pays : bool;           (* the user's wallet is the source *)
  f_type : TransactionType;
  f_label : string;             (* how the default description starts *)
  f_name : string }.            (* the [paymentFlow] of the metadata *)

Definition topup_flow : Flow :=
  {| f_system := TREASURY; f_user_pays := false; f_type := TOPUP;
     f_label := "Top-up of "; f_name := "topup" |}.

Definition bonus_flow : Flow :=
  {| f_system := TREASURY; f_user_pays := false; f_type := BONUS;
     f_label := "Bonus of "; f_name := "bonus" |}.

Definition purchase_flow : Flow :=
  {| f_system := REVENUE; f_user_pays := true; f_type := PURCHASE;
     f_label := "Purchase of "; f_name := "purchase" |}.

Definition transfer_args (f : Flow) (userWallet systemWallet : WalletRow)
    (assetCode : string) (amt : Z) (key description : option string)
    (md : option (gmap string string)) : TransferArgs :=
  {| sourceWalletId := wr_id (if f_user_pays f then userWallet else systemWallet);
     destWalletId := wr_id (if f_user_pays f then systemWallet else userWallet);
     amount := amt;
     assetTypeId := wr_asset_type_id userWallet;
     transactionType := f_type f;
     description :=
       description_or description
         (f_label f +:+ pretty amt +:+ " " +:+ assetCode);
     metadata := with_flow md (f_name f);
     idempotencyKey := key |}.

(** What runs inside the transaction. *)
Definition operation_body (f : Flow) (userId assetCode : string) (amt : Z)
    (key description : option string) (md : option (gmap string string))
  : M OpResult :=
  let* cached := checkIdempotencyKey key in
  match cached with
  | Some c => ret (Replay (i_response c))
  | None =>
      let* userWallet := findWallet userId assetCode in
      let* systemWallet := findWallet (f_system f) assetCode in
      let* result :=
        executeTransfer
          (transfer_args f userWallet systemWallet assetCode amt key
             description md) in
      storeIdempotencyKey key result 200 ;;
      ret (Fresh result)
  end.

Definition operation (f : Flow) (userId assetCode : option string)
    (amt : JsValue) (key description : option string)
    (md : option (gmap string string)) : M OpResult :=
  if negb (str_truthy userId)
  then throw (App (ValidationError "userId is required"))
  else if negb (str_truthy assetCode)
  then throw (App (ValidationError "assetCode is required"))
  else if bad_amount amt
  then throw (App (ValidationError "amount must be a positive integer"))
  else
    withTransaction
      (operation_body f (default "" userId) (default "" assetCode)
         (number_value amt) key description md).

(** The type of the three operations. *)
Definition Operation : Type :=
  option string -> option string -> JsValue -> option string ->
  option string -> option (gmap string string) -> M OpResult.

Definition is_operation (op : Operation) : Prop :=
  op = topUp \/ op = issueBonus \/ op = purchase.

(** An optional string parameter that is missing or empty. *)
Definition empty (o : option string) : Prop := o = None \/ o = Some "".

(** A strictly positive integer. *)
Definition positive_integer (v : JsValue) : Prop :=
  exists z, v = JInt z /\ 0 < z.

(** The inputs pass the validation of section 4.6. *)
Definition valid_input (userId assetCode : option string) (amt : JsValue)
  : Prop :=
  ~ empty userId /\ ~ empty assetCode /\ positive_integer amt.

(** *** What a call of an operation did *)

(** The call answered from the idempotency store and left the tables alone. *)
Definition replays (s s' : Store) (res : OpResult) : Prop :=
  idempotent res = true /\ s' = s.

(** The call executed one transfer of kind [ty] from the wallet of account
    [from] to the wallet of account [to], both for the asset [code]: one
    transaction row and its two ledger entries were appended. *)
Definition moves (s s' : Store) (res : OpResult) (from to code : string)
    (ty : TransactionType) : Prop :=
  exists txn debit credit,
    idempotent res = false /\
    transactions s' = transactions s ++ [txn] /\
    ledger_entries s' = ledger_entries s ++ [debit; credit] /\
    t_transaction_type txn = ty /\
    r_transactionType (payload res) = ty /\
    is_wallet_of s (t_source_wallet_id txn) from code /\
    is_wallet_of s (t_dest_wallet_id txn) to code /\
    wc_id (r_sourceWallet (payload res)) = t_source_wallet_id txn /\
    wc_id (r_destWallet (payload res)) = t_dest_wallet_id txn /\
    le_entry_type debit = DEBIT /\
    le_wallet_id debit = t_source_wallet_id txn /\
    le_entry_type credit = CREDIT /\
    le_wallet_id credit = t_dest_wallet_id txn.

(** The record of a key in the idempotency store, unless it has expired. *)
Definition cached (w : World) (key : string) : option IdempotencyRow :=
  match idempotency_store (store w) !! key with
  | Some row => if now w <? i_expires_at row then Some row else None
  | None => None
  end.

(** *** Reading *)

(** The rows [getBalance] reads: the wallets of the user, of one asset when
    [asset] is given, by asset code. *)
Definition balance_rows (s : Store) (user : string) (asset : option string)
  : list WalletRow :=
  merge_sort by_code
    (filter (fun r => wr_user_id r = user /\
                      code_matches asset (wr_asset_code r))
       (wallet_rows s)).

(** The order of the balances returned. *)
Definition by_assetCode : relation Balance :=
  fun b1 b2 => String.le (b_assetCode b1) (b_assetCode b2).

(** The whole history of a user, newest first, before LIMIT and OFFSET. *)
Definition full_history (s : Store) (user : string) (asset : option string)
  : list HistoryRow :=
  merge_sort newest_first (mbind (history_of s user asset) (transactions s)).

(** The order of the transactions returned. *)
Definition newest_view_first : relation TransactionView :=
  fun v1 v2 => v_createdAt v2 <= v_createdAt v1.

(** A row of the history: a transaction joined with its asset type, with one
    of its ledger entries and with the wallet of that entry, which belongs to
    the user. *)
Definition history_row (s : Store) (user : string) (asset : option string)
    (t : Transaction) (le : LedgerEntry) (a : AssetType) : HistoryRow :=
  {| h_id := t_id t;
     h_transaction_type := t_transaction_type t;
     h_status := t_status t;
     h_amount := t_amount t;
     h_description := t_description t;
     h_metadata := t_metadata t;
     h_created_at := t_created_at t;
     h_idempotency_key := t_idempotency_key t;
     h_asset_code := at_code a;
     h_asset_name := at_name a;
     h_entry_type := le_entry_type le;
     h_balance_before := le_balance_before le;
     h_balance_after := le_balance_after le |}.

Definition in_history (s : Store) (user : string) (asset : option string)
    (row : HistoryRow) : Prop :=
  exists t le a wl,
    t ∈ transactions s /\ le ∈ ledger_entries s /\
    le_transaction_id le = t_id t /\
    asset_types s !! t_asset_type_id t = Some a /\
    code_matches asset (at_code a) /\
    wallets s !! le_wallet_id le = Some wl /\ w_user_id wl = user /\
    row = history_row s user asset t le a.

End Notions.

(** ** Notions about the HTTP layer *)
Module HttpNotions.
Import Js Errors Model Db WalletService Http Idempotency Routes Notions.
Local Open Scope db_scope.

(** The key the middleware looks at:
    [req.headers['idempotency-key'] || req.body?.idempotencyKey]. *)
Definition supplied_key (req : Request) : JsValue :=
  js_or (of_opt_string (header_idempotency_key req)) (body_key req).

(** The key the error handler looks at:
    [req.idempotencyKey || req.body?.idempotencyKey]. *)
Definition available_key (req : Request) : JsValue :=
  js_or (of_opt_string (req_idempotencyKey req)) (body_key req).

(** The answer of the middleware to a key it refuses. *)
Definition key_refused : Response :=
  {| status := 400;
     body := Failure
       (plain_error "VALIDATION_ERROR"
          "Idempotency-Key must be a string with max 255 characters") |}.

(** The answer of the error handler to a duplicate it can replay. *)
Definition replayed (row : IdempotencyRow) : Response :=
  {| status := 200;
     body := Success (PCached (i_response row))
               (Some "Idempotent replay - original response returned") |}.

(** The common shape of the three mutating routes. *)
Definition post_operation (op : Operation) (req : Request) : M RouteResult :=
  guarded
    match req_body req with
    | None => throw destructure_failure
    | Some b =>
        let* result :=
          op (body_userId b) (body_assetCode b) (body_amount b)
            (req_idempotencyKey req) (body_description b) (body_metadata b) in
        ret (transfer_response result)
    end.

Definition is_transfer_route (route : Request -> M RouteResult) : Prop :=
  route = post_topup \/ route = post_bonus \/ route = post_purchase.

(** The request ended as a validation failure: answered with the code
    VALIDATION_ERROR, or a [ValidationError] handed to the error handler. *)
Definition validation_failure (out : RouteResult) : Prop :=
  match out with
  | Responded res =>
      match body res with
      | Failure e => e_code e = "VALIDATION_ERROR"
      | Success _ _ => False
      end
  | Next e => is_validation e
  end.

End HttpNotions.

(** ** A small world to run the code in: one asset, the two system wallets
    and the wallets of two users *)
Module Scenario.
Import Js Errors Model Db WalletService.

Definition gold : AssetType :=
  {| at_code := "GOLD_COINS"; at_name := "Gold Coins"; at_is_active := true |}.

Definition diamonds : AssetType :=
  {| at_code := "DIAMONDS"; at_name := "Diamonds"; at_is_active := true |}.

Definition wallet (user : string) (asset balance : Z) (negative : bool)
  : Wallet :=
  {| w_user_id := user; w_asset_type_id := asset; w_balance := balance;
     w_allow_negative := negative; w_version := 1; w_updated_at := 0 |}.

Definition seed_store : Store :=
  {| asset_types := {[ 1 := gold; 2 := diamonds ]};
     wallets :=
       {[ "w-treasury" := wallet TREASURY 1 (-3750) true;
          "w-revenue" := wallet REVENUE 1 0 true;
          "w-alice" := wallet "alice" 1 1000 false;
          "w-bob" := wallet "bob" 2 25 false;
          "w-revenue-d" := wallet REVENUE 2 0 true ]};
     transactions := [];
     ledger_entries := [];
     idempotency_store := ∅ |}.

Definition seed_world : World :=
  {| store := seed_store; snapshot := None; now := 1000;
     uuid_source := fun n => "txn-" +:+ pretty n; uuid_used := 0;
     log := [] |}.

(** Alice receives 500 gold coins from the treasury. *)
Definition top_up_alice : TransferArgs :=
  {| sourceWalletId := "w-treasury"; destWalletId := "w-alice";
     amount := 500; assetTypeId := 1; transactionType := TOPUP;
     description := "buy"; metadata := None; idempotencyKey := Some "k1" |}.

(** Bob tries to spend more diamonds than he has. *)
Definition bob_overspends : TransferArgs :=
  {| sourceWalletId := "w-bob"; destWalletId := "w-revenue-d";
     amount := 999999; assetTypeId := 2; transactionType := PURCHASE;
     description := "sword"; metadata := None; idempotencyKey := None |}.

(** The answer of an earlier top-up, kept under the key "k1". *)
Definition earlier_result : TransferResult :=
  {| r_transactionId := "txn-earlier";
     r_transactionType := TOPUP;
     r_sourceWallet :=
       {| wc_id := "w-treasury"; wc_balanceBefore := -3250;
          wc_balanceAfter := -3750 |};
     r_destWallet :=
       {| wc_id := "w-alice"; wc_balanceBefore := 500;
          wc_balanceAfter := 1000 |};
     r_amount := 500;
     r_description := "buy";
     r_timestamp := 900 |}.

Definition earlier_row : IdempotencyRow :=
  {| i_response := earlier_result; i_status_code := 200;
     i_created_at := 900; i_expires_at := 900 + ttl |}.

Definition replay_world : World :=
  {| store :=
       {| asset_types := asset_types seed_store;
          wallets := wallets seed_store;
          transactions := [];
          ledger_entries := [];
          idempotency_store := {[ "k1" := earlier_row ]} |};
     snapshot := None; now := 1000;
     uuid_source := fun n => "txn-" +:+ pretty n; uuid_used := 0;
     log := [] |}.

(** A request for the history of Alice. *)
Definition history_request (limit offset : option string) : Http.Request :=
  {| Http.header_idempotency_key := None; Http.req_body := None;
     Http.param_userId := "alice"; Http.query_assetCode := None;
     Http.query_limit := limit; Http.query_offset := offset;
     Http.req_idempotencyKey := None |}.

(** The store answering the statement of the error handler for a key that
    is a string. *)
Definition lookup_by_key (key : JsValue) : M (list IdempotencyRow) :=
  select_idempotency_any_age (Idempotency.string_of key).

(** A top-up of Alice, sent with an idempotency key in the header. *)
Definition top_up_body : Http.Body :=
  {| Http.body_userId := Some "alice";
     Http.body_assetCode := Some "GOLD_COINS";
     Http.body_amount := JInt 500;
     Http.body_description := None;
     Http.body_metadata := None;
     Http.body_idempotencyKey := JUndefined |}.

Definition top_up_request (key : option string) : Http.Request :=
  {| Http.header_idempotency_key := key;
     Http.req_body := Some top_up_body;
     Http.param_userId := ""; Http.query_assetCode := None;
     Http.query_limit := None; Http.query_offset := None;
     Http.req_idempotencyKey := None |}.

(** The same request once the middleware has attached the key "k1". *)
Definition keyed_request : Http.Request :=
  Http.set_idempotencyKey "k1" (top_up_request (Some "k1")).

(** Keys of 255 and of 256 characters. *)
Definition key_of_length (n : nat) : string :=
  fold_right String EmptyString (replicate n "a"%char).

End Scenario.

(** ** src/app.js: the routes and the error handler, as the application
    mounts them *)
Module App.
Import Js Errors Model Db WalletService Http Idempotency ErrorHandler Routes.
Local Open Scope db_scope.

Section app.

(** [process.env.NODE_ENV === 'production']. *)
Variable production : bool.

(** [query] of src/config/db.js applied to the statement of the error
    handler. *)
Variable query : JsValue -> M (list IdempotencyRow).

(** [app.use('/api', walletRoutes)], whose router starts with
    [router.use(idempotencyMiddleware)], followed by [app.use(errorHandler)]:
    an error a route hands to [next] reaches the error handler together with
    the request as the middleware left it. *)
Definition serve (route : Request -> M RouteResult) (req : Request)
  : M Response :=
  match idempotencyMiddleware req with
  | inl res => ret res
  | inr req' =>
      let* out := route req' in
      match out with
      | Responded res => ret res
      | Next error => errorHandler production query error req'
      end
  end.

End app.

End App.

(** ** Invariants of the tables and further vocabulary *)
Module Invariants.
Import Js Errors Model Db WalletService Http Notions.

(** The constraint [chk_wallet_balance] holds of every wallet. *)
Definition floor_ok (s : Store) : Prop :=
  forall id wl, wallets s !! id = Some wl ->
    w_allow_negative wl = true \/ 0 <= w_balance wl.

(** No two transactions share an id, and no two share an idempotency key
    that is not null. *)
Definition transactions_unique (s : Store) : Prop :=
  NoDup (t_id <$> transactions s) /\
  NoDup (omap t_idempotency_key (transactions s)).

(** The constraint UNIQUE on [asset_types.code]. *)
Definition codes_unique (s : Store) : Prop :=
  forall i j a b,
    asset_types s !! i = Some a -> asset_types s !! j = Some b ->
    at_code a = at_code b -> i = j.

(** A wallet after a transfer touched it: only the balance, the version and
    the time of the last update differ. *)
Definition touched (wl wl' : Wallet) (balance t : Z) : Prop :=
  w_user_id wl' = w_user_id wl /\
  w_asset_type_id wl' = w_asset_type_id wl /\
  w_allow_negative wl' = w_allow_negative wl /\
  w_balance wl' = balance /\
  w_version wl' = w_version wl + 1 /\
  w_updated_at wl' = t.

(** The idempotency records after [storeIdempotencyKey] at time [t]: a
    record is added unless the key is missing or empty, or already has one. *)
Definition recorded (key : option string) (r : TransferResult) (t : Z)
    (m : gmap string IdempotencyRow) : gmap string IdempotencyRow :=
  if str_truthy key
  then
    match m !! default "" key with
    | Some _ => m
    | None =>
        <[default "" key :=
            {| i_response := r; i_status_code := 200; i_created_at := t;
               i_expires_at := t + ttl |}]> m
    end
  else m.

(** The world at a later time, with the same tables. *)
Definition later (t : Z) (w : World) : World :=
  {| store := store w; snapshot := snapshot w; now := t;
     uuid_source := uuid_source w; uuid_used := uuid_used w; log := log w |}.

End Invariants.

(** * Part II: statements and proofs *)

Import Js Errors Model Db WalletService Http Idempotency ErrorHandler Routes.
Import Notions HttpNotions.
Local Open Scope db_scope.

(** * Facts about the queries *)
Section wallet_rows_facts.
Context (s : Store).

Lemma join_asset_id kv r : join_asset s kv = Some r -> wr_id r = kv.1.
Proof.
  unfold join_asset. destruct (asset_types s !! _); intros [= <-]; reflexivity.
Qed.

Lemma elem_of_wallet_rows r :
  r ∈ wallet_rows s <-> wallet_row s (wr_id r) = Some r.
Proof.
  unfold wallet_rows, wallet_row. rewrite list_elem_of_omap. split.
  - intros ([id wl] & Hin & Hj). apply elem_of_map_to_list in Hin.
    pose proof (join_asset_id _ _ Hj) as Hid. simpl in Hid.
    rewrite Hid, Hin. exact Hj.
  - destruct (wallets s !! wr_id r) as [wl|] eqn:Hw; [|discriminate].
    intros Hj. exists (wr_id r, wl). split; [|exact Hj].
    apply elem_of_map_to_list. exact Hw.
Qed.

Lemma wallet_row_id id r : wallet_row s id = Some r -> wr_id r = id.
Proof.
  unfold wallet_row. destruct (wallets s !! id); [|discriminate].
  intros H. apply join_asset_id in H. exact H.
Qed.

Lemma wallet_row_elem id r : wallet_row s id = Some r -> r ∈ wallet_rows s.
Proof.
  intros H. apply elem_of_wallet_rows.
  rewrite (wallet_row_id _ _ H). exact H.
Qed.

Lemma omap_join_ids_sublist (l : list (string * Wallet)) :
  (wr_id <$> omap (join_asset s) l) `sublist_of` l.*1.
Proof.
  induction l as [|kv l IH]; simpl; [constructor|].
  destruct (join_asset s kv) as [r|] eqn:Hj; simpl.
  - rewrite (join_asset_id _ _ Hj). by apply sublist_skip.
  - by apply sublist_cons.
Qed.

Lemma NoDup_wallet_rows_ids : NoDup (wr_id <$> wallet_rows s).
Proof.
  eapply sublist_NoDup; [|apply omap_join_ids_sublist].
  apply NoDup_fst_map_to_list.
Qed.

End wallet_rows_facts.

(** * Facts about [lockWalletsInOrder] *)
Section lock_facts.

Lemma to_wallet_map_snoc rows r :
  to_wallet_map (rows ++ [r]) = <[wr_id r := r]> (to_wallet_map rows).
Proof. unfold to_wallet_map. rewrite foldl_snoc. reflexivity. Qed.

Lemma to_wallet_map_lookup_Some rows id r :
  to_wallet_map rows !! id = Some r -> r ∈ rows /\ wr_id r = id.
Proof.
  induction rows as [|x rows IH] using rev_ind.
  - unfold to_wallet_map; simpl. rewrite lookup_empty. discriminate.
  - rewrite to_wallet_map_snoc. rewrite lookup_insert. case_decide as Hd.
    + intros [= <-]. split; [|exact Hd]. apply elem_of_app. right.
      apply list_elem_of_singleton. reflexivity.
    + intros H. destruct (IH H) as [Hin Hid]. split; [|exact Hid].
      apply elem_of_app. left. exact Hin.
Qed.

Lemma to_wallet_map_lookup_None rows id :
  id ∉ wr_id <$> rows -> to_wallet_map rows !! id = None.
Proof.
  intros Hn. destruct (to_wallet_map rows !! id) as [r|] eqn:H; [|reflexivity].
  apply to_wallet_map_lookup_Some in H as [Hin <-].
  exfalso. apply Hn. apply list_elem_of_fmap. exists r. split; [reflexivity|exact Hin].
Qed.

Lemma to_wallet_map_lookup_elem rows r :
  NoDup (wr_id <$> rows) -> r ∈ rows -> to_wallet_map rows !! wr_id r = Some r.
Proof.
  induction rows as [|x rows IH] using rev_ind; intros Hnd Hin.
  - by apply elem_of_nil in Hin.
  - rewrite to_wallet_map_snoc. rewrite fmap_app in Hnd.
    apply NoDup_app in Hnd as (Hnd1 & Hdisj & _).
    apply elem_of_app in Hin as [Hin|Hin].
    + rewrite lookup_insert_ne; [by apply IH|].
      intros Heq. apply (Hdisj (wr_id r)).
      * apply list_elem_of_fmap. exists r. split; [reflexivity|exact Hin].
      * simpl. rewrite Heq. apply list_elem_of_singleton. reflexivity.
    + apply list_elem_of_singleton in Hin as ->. apply lookup_insert_eq.
Qed.


Lemma elem_of_locked_rows s ids r :
  r ∈ locked_rows s ids <-> wallet_row s (wr_id r) = Some r /\ wr_id r ∈ ids.
Proof.
  unfold locked_rows. rewrite merge_sort_Permutation.
  rewrite list_elem_of_filter, elem_of_wallet_rows. tauto.
Qed.

Lemma NoDup_locked_rows s ids : NoDup (wr_id <$> locked_rows s ids).
Proof.
  unfold locked_rows. rewrite merge_sort_Permutation.
  eapply sublist_NoDup; [apply (NoDup_wallet_rows_ids s)|].
  apply fmap_sublist. apply sublist_filter.
Qed.

Lemma locked_rows_ids_incl s ids id :
  id ∈ wr_id <$> locked_rows s ids -> id ∈ ids /\ is_Some (wallet_row s id).
Proof.
  intros (r & -> & Hin)%list_elem_of_fmap.
  apply elem_of_locked_rows in Hin as [Hrow Hid]. split; [exact Hid|].
  exists r. exact Hrow.
Qed.

Lemma locked_rows_length_le s ids :
  (length (locked_rows s ids) <= length ids)%nat.
Proof.
  rewrite <- (length_fmap wr_id). apply submseteq_length.
  apply NoDup_submseteq; [apply NoDup_locked_rows|].
  intros id Hin. apply locked_rows_ids_incl in Hin. tauto.
Qed.

(** The row count equals the input count exactly when the input has no
    duplicate and every id names a wallet. *)
Lemma locked_rows_length s ids :
  length (locked_rows s ids) = length ids <->
  NoDup ids /\ forall id, id ∈ ids -> is_Some (wallet_row s id).
Proof.
  split.
  - intros Hlen.
    assert (wr_id <$> locked_rows s ids ≡ₚ ids) as Hperm.
    { apply submseteq_length_Permutation.
      - apply NoDup_submseteq; [apply NoDup_locked_rows|].
        intros id Hin. apply locked_rows_ids_incl in Hin. tauto.
      - rewrite length_fmap. lia. }
    split.
    + rewrite <- Hperm. apply NoDup_locked_rows.
    + intros id Hin. rewrite <- Hperm in Hin.
      apply locked_rows_ids_incl in Hin. tauto.
  - intros [Hnd Hall]. rewrite <- (length_fmap wr_id).
    apply Permutation_length. apply NoDup_Permutation; [apply NoDup_locked_rows|exact Hnd|].
    intros id. split.
    + intros Hin. apply locked_rows_ids_incl in Hin. tauto.
    + intros Hin. destruct (Hall id Hin) as [r Hr].
      apply list_elem_of_fmap. exists r. split.
      * symmetry. eapply wallet_row_id. exact Hr.
      * apply elem_of_locked_rows. rewrite (wallet_row_id _ _ _ Hr). split; [exact Hr|exact Hin].
Qed.

Lemma locked_rows_sorted_ids s ids :
  locked_rows s (merge_sort String.le ids) = locked_rows s ids.
Proof.
  unfold locked_rows. f_equal. apply list_filter_iff. intros r.
  rewrite merge_sort_Permutation. reflexivity.
Qed.



Lemma lockWalletsInOrder_run ids w :
  lockWalletsInOrder ids w =
    if bool_decide (length (locked_rows (store w) ids) ≠ length ids)
    then (Throw (lock_not_found ids), after_lock ids w)
    else (Return (to_wallet_map (locked_rows (store w) ids)), after_lock ids w).
Proof.
  rewrite <- (locked_rows_sorted_ids (store w) ids).
  unfold lockWalletsInOrder, select_wallets_for_update, bind, emit,
    get_store, ret, throw, locked_rows, after_lock. simpl.
  destruct (bool_decide _); reflexivity.
Qed.

Lemma to_wallet_map_locked s ids id :
  id ∈ ids ->
  to_wallet_map (locked_rows s ids) !! id = wallet_row s id.
Proof.
  intros Hin. destruct (wallet_row s id) as [r|] eqn:Hr.
  - rewrite <- (wallet_row_id _ _ _ Hr).
    apply to_wallet_map_lookup_elem; [apply NoDup_locked_rows|].
    apply elem_of_locked_rows. rewrite (wallet_row_id _ _ _ Hr). tauto.
  - apply to_wallet_map_lookup_None. intros H.
    apply locked_rows_ids_incl in H as [_ [r Hr']]. congruence.
Qed.

End lock_facts.

(** * The monad *)
Section monad_facts.
Context {A B : Type}.

Lemma bind_Return_inv (m : M A) (k : A -> M B) w b w'' :
  bind m k w = (Return b, w'') ->
  exists a w', m w = (Return a, w') /\ k a w' = (Return b, w'').
Proof.
  unfold bind. destruct (m w) as [[a|e] w'] eqn:Hm; [eauto|discriminate].
Qed.

Lemma bind_Throw_inv (m : M A) (k : A -> M B) w e w'' :
  bind m k w = (Throw e, w'') ->
  m w = (Throw e, w'') \/
  exists a w', m w = (Return a, w') /\ k a w' = (Throw e, w'').
Proof.
  unfold bind. destruct (m w) as [[a|e'] w'] eqn:Hm; [eauto|].
  intros [= -> ->]. by left.
Qed.

Lemma bind_run (m : M A) (k : A -> M B) w a w' :
  m w = (Return a, w') -> bind m k w = k a w'.
Proof. unfold bind. by intros ->. Qed.

Lemma bind_run_throw (m : M A) (k : A -> M B) w e w' :
  m w = (Throw e, w') -> bind m k w = (Throw e, w').
Proof. unfold bind. by intros ->. Qed.

End monad_facts.

Section sound_facts.
Context (R : World -> World -> Prop) (E : Error -> Prop).
Context `{!Reflexive R, !Transitive R}.

Lemma sound_ret {A} (a : A) : sound R E (ret a).
Proof. intros w o w' [= <- <-]. split; [reflexivity|discriminate]. Qed.

Lemma sound_throw {A} e : E e -> sound R E (@throw A e).
Proof. intros He w o w' [= <- <-]. split; [reflexivity|]. by intros ? [= <-]. Qed.

Lemma sound_bind {A B} (m : M A) (k : A -> M B) :
  sound R E m -> (forall a, sound R E (k a)) -> sound R E (bind m k).
Proof.
  intros Hm Hk w o w''. unfold bind.
  destruct (m w) as [[a|e] w'] eqn:Hmw.
  - intros Hkw. destruct (Hm _ _ _ Hmw) as [HR _].
    destruct (Hk a _ _ _ Hkw) as [HR' HE]. split; [by etrans|exact HE].
  - intros [= <- <-]. destruct (Hm _ _ _ Hmw) as [HR HE].
    split; [exact HR|]. intros e' [= <-]. by apply HE.
Qed.

Lemma sound_get_store : sound R E get_store.
Proof. intros w o w' [= <- <-]. split; [reflexivity|discriminate]. Qed.

Lemma sound_get_now : sound R E get_now.
Proof. intros w o w' [= <- <-]. split; [reflexivity|discriminate]. Qed.

End sound_facts.

(** Statements leave the snapshot, the clock and the identifier supply
    alone. *)
#[local] Instance same_env_refl : Reflexive same_env.
Proof.
  intros w. repeat split. exists []. by rewrite app_nil_r.
Qed.
#[local] Instance same_env_trans : Transitive same_env.
Proof.
  intros w1 w2 w3 (?&?&?&l1&Hl1) (?&?&?&l2&Hl2).
  repeat split; [by etrans..|].
  exists (l1 ++ l2). by rewrite Hl2, Hl1, app_assoc.
Qed.

Section env_facts.
Context (E : Error -> Prop).

Lemma sound_emit e : sound same_env E (emit e).
Proof.
  intros w o w' [= <- <-]. split; [|discriminate].
  repeat split. by exists [e].
Qed.

Lemma sound_put_store s : sound same_env E (put_store s).
Proof.
  intros w o w' [= <- <-]. split; [|discriminate].
  repeat split. exists []. simpl. by rewrite app_nil_r.
Qed.

Lemma sound_uuidv4 : sound same_env E uuidv4.
Proof.
  intros w o w' [= <- <-]. split; [|discriminate].
  repeat split. exists []. simpl. by rewrite app_nil_r.
Qed.

End env_facts.

(** One step of the proof that a computation is [sound]. *)
Ltac sound_step :=
  match goal with
  | |- sound _ _ (bind _ _) => apply sound_bind; [apply _ | | intros ?]
  | |- sound _ _ (ret _) => apply sound_ret; apply _
  | |- sound _ _ get_store => apply sound_get_store; apply _
  | |- sound _ _ get_now => apply sound_get_now; apply _
  | |- sound _ _ (emit _) => apply sound_emit
  | |- sound _ _ (put_store _) => apply sound_put_store
  | |- sound _ _ uuidv4 => apply sound_uuidv4
  | |- sound _ _ (throw _) => apply sound_throw; [apply _ | ]
  | |- sound _ _ (if ?b then _ else _) => destruct b
  | |- sound _ _ (match ?x with _ => _ end) => destruct x
  end.


Lemma pg_not_validation c m : not_validation (Pg c m).
Proof. intros [? [=]]. Qed.
Lemma type_error_not_validation m : not_validation (TypeError m).
Proof. intros [? [=]]. Qed.
Lemma not_found_not_validation r i : not_validation (App (NotFoundError r i)).
Proof. intros [? [=]]. Qed.
Lemma insufficient_not_validation w r a :
  not_validation (App (InsufficientBalanceError w r a)).
Proof. intros [? [=]]. Qed.

Create HintDb wallet.
#[local] Hint Resolve pg_not_validation type_error_not_validation
  not_found_not_validation insufficient_not_validation : wallet.

Ltac sound_tac := repeat sound_step; auto with wallet.

Section statement_soundness.

Lemma sound_select_wallet u c : sound same_env not_validation (select_wallet u c).
Proof. unfold select_wallet. sound_tac. Qed.

Lemma sound_select_wallets_for_update ids :
  sound same_env not_validation (select_wallets_for_update ids).
Proof. unfold select_wallets_for_update. sound_tac. Qed.

Lemma sound_update_wallet_balance b id :
  sound same_env not_validation (update_wallet_balance b id).
Proof. unfold update_wallet_balance. sound_tac. Qed.

Lemma sound_insert_transaction id key ty src dst asset amt d md :
  sound same_env not_validation
    (insert_transaction id key ty src dst asset amt d md).
Proof. unfold insert_transaction. sound_tac. Qed.

Lemma sound_insert_ledger_entry txn wl ty amt b a :
  sound same_env not_validation (insert_ledger_entry txn wl ty amt b a).
Proof. unfold insert_ledger_entry. sound_tac. Qed.

Lemma sound_select_idempotency k :
  sound same_env not_validation (select_idempotency k).
Proof. unfold select_idempotency. sound_tac. Qed.

Lemma sound_insert_idempotency k r c :
  sound same_env not_validation (insert_idempotency k r c).
Proof. unfold insert_idempotency. sound_tac. Qed.

Lemma sound_findWallet u c : sound same_env not_validation (findWallet u c).
Proof.
  unfold findWallet. apply sound_bind; [apply _|apply sound_select_wallet|].
  intros rows. sound_tac.
Qed.

Lemma sound_lockWalletsInOrder ids :
  sound same_env not_validation (lockWalletsInOrder ids).
Proof.
  unfold lockWalletsInOrder.
  apply sound_bind; [apply _|apply sound_select_wallets_for_update|].
  intros rows. sound_tac.
Qed.

Lemma sound_checkIdempotencyKey k :
  sound same_env not_validation (checkIdempotencyKey k).
Proof.
  unfold checkIdempotencyKey. destruct (negb _); [sound_tac|].
  apply sound_bind; [apply _|apply sound_select_idempotency|].
  intros rows. sound_tac.
Qed.

Lemma sound_storeIdempotencyKey k r c :
  sound same_env not_validation (storeIdempotencyKey k r c).
Proof.
  unfold storeIdempotencyKey. destruct (negb _); [sound_tac|].
  apply sound_insert_idempotency.
Qed.

Lemma sound_executeTransfer a :
  sound same_env not_validation (executeTransfer a).
Proof.
  unfold executeTransfer.
  apply sound_bind; [apply _|apply sound_lockWalletsInOrder|].
  intros wallets.
  destruct (wallets !! sourceWalletId a); [|sound_tac].
  destruct (negb _ && _); [sound_tac|].
  destruct (wallets !! destWalletId a); [|sound_tac].
  repeat (apply sound_bind; [apply _| |intros ?]);
    auto using sound_update_wallet_balance, sound_insert_transaction,
      sound_insert_ledger_entry, sound_uuidv4.
  all: sound_tac.
Qed.

End statement_soundness.

(** * What each statement does when it succeeds *)
Section statement_runs.

Lemma transactions_set_balance id b t s :
  transactions (set_balance id b t s) = transactions s.
Proof. unfold set_balance. by destruct (wallets s !! id). Qed.

Lemma ledger_entries_set_balance id b t s :
  ledger_entries (set_balance id b t s) = ledger_entries s.
Proof. unfold set_balance. by destruct (wallets s !! id). Qed.

Lemma asset_types_set_balance id b t s :
  asset_types (set_balance id b t s) = asset_types s.
Proof. unfold set_balance. by destruct (wallets s !! id). Qed.

Lemma idempotency_store_set_balance id b t s :
  idempotency_store (set_balance id b t s) = idempotency_store s.
Proof. unfold set_balance. by destruct (wallets s !! id). Qed.

Lemma select_wallet_run u c w :
  select_wallet u c w =
    (Return (filter (fun r => wr_user_id r = u /\ wr_asset_code r = c)
               (wallet_rows (store w))),
     step (ESelectWallet u c) (store w) w).
Proof. reflexivity. Qed.

Lemma findWallet_Return u c w row w' :
  findWallet u c w = (Return row, w') ->
  is_wallet_of (store w) (wr_id row) u c /\
  wallet_row (store w) (wr_id row) = Some row /\
  w' = step (ESelectWallet u c) (store w) w.
Proof.
  unfold findWallet. intros H. rewrite (bind_run _ _ _ _ _ (select_wallet_run u c w)) in H.
  destruct (filter _ _) as [|r rows] eqn:Hf; [discriminate|].
  injection H as <- <-.
  assert (r ∈ filter (fun r => wr_user_id r = u /\ wr_asset_code r = c)
            (wallet_rows (store w))) as Hin.
  { rewrite Hf. by left. }
  apply list_elem_of_filter in Hin as [[Hu Hc] Hin].
  apply elem_of_wallet_rows in Hin.
  split; [|split; [exact Hin|reflexivity]]. exists r. auto.
Qed.

Lemma findWallet_Throw u c w e w' :
  findWallet u c w = (Throw e, w') ->
  (forall id, ~ is_wallet_of (store w) id u c) /\
  e = App (NotFoundError "Wallet" ("user=" +:+ u +:+ ", asset=" +:+ c)) /\
  w' = step (ESelectWallet u c) (store w) w.
Proof.
  unfold findWallet. intros H. rewrite (bind_run _ _ _ _ _ (select_wallet_run u c w)) in H.
  destruct (filter _ _) as [|r rows] eqn:Hf; [|discriminate].
  injection H as <- <-. split; [|by split].
  intros id (row & Hrow & Hu & Hc).
  eapply (filter_nil_not_elem_of _ _ row Hf); [by split|].
  eapply wallet_row_elem. exact Hrow.
Qed.

Lemma update_wallet_balance_Return b id w u w' :
  update_wallet_balance b id w = (Return u, w') ->
  in_bigint b = true /\
  (forall wl, wallets (store w) !! id = Some wl ->
     w_allow_negative wl = true \/ 0 <= b) /\
  w' = step (EUpdateWallet id b) (set_balance id b (now w) (store w)) w.
Proof.
  unfold update_wallet_balance, bind, emit, get_store, get_now, throw, ret,
    put_store, set_balance, step. simpl.
  destruct (in_bigint b); simpl; [|discriminate].
  destruct (wallets (store w) !! id) as [wl|] eqn:Hw.
  - destruct (negb (w_allow_negative wl) && (b <? 0)) eqn:Hc; [discriminate|].
    intros [= <- <-]. split; [reflexivity|]. split; [|reflexivity].
    intros ? [= <-]. apply andb_false_iff in Hc as [Hc|Hc].
    + left. by destruct (w_allow_negative wl).
    + right. apply Z.ltb_ge in Hc. exact Hc.
  - intros [= <- <-]. split; [reflexivity|]. split; [discriminate|reflexivity].
Qed.


Lemma insert_transaction_Return id key ty src dst asset amt d md w u w' :
  insert_transaction id key ty src dst asset amt d md w = (Return u, w') ->
  0 < amt /\
  key_taken key (transactions (store w)) = false /\
  w' = step (EInsertTransaction id)
         (add_transaction (new_transaction id key ty src dst asset amt d md (now w))
            (store w)) w.
Proof.
  unfold insert_transaction, bind, emit, get_store, get_now, throw, ret,
    put_store, step. simpl.
  destruct (key_too_long key); [discriminate|].
  destruct (negb (in_bigint amt)); [discriminate|].
  destruct (amt <=? 0) eqn:Hamt; [discriminate|].
  destruct (bool_decide _ || key_taken key _) eqn:Hk; [discriminate|].
  destruct (negb _); [discriminate|].
  intros [= <- <-]. apply Z.leb_gt in Hamt. apply orb_false_iff in Hk as [_ Hk].
  split; [exact Hamt|]. split; [exact Hk|reflexivity].
Qed.


Lemma insert_ledger_entry_Return txn wl ty amt before after w u w' :
  insert_ledger_entry txn wl ty amt before after w = (Return u, w') ->
  w' = step (EInsertLedgerEntry txn wl ty)
         (add_ledger_entry (new_ledger_entry txn wl ty amt before after (now w))
            (store w)) w.
Proof.
  unfold insert_ledger_entry, bind, emit, get_store, get_now, throw, ret,
    put_store, step. simpl.
  destruct (negb _); [discriminate|].
  destruct (amt <=? 0); [discriminate|].
  destruct (negb _); [discriminate|].
  by intros [= <- <-].
Qed.

Lemma lockWalletsInOrder_Return ids w wm w' :
  lockWalletsInOrder ids w = (Return wm, w') ->
  NoDup ids /\
  (forall id, id ∈ ids -> is_Some (wallet_row (store w) id)) /\
  (forall id, id ∈ ids -> wm !! id = wallet_row (store w) id) /\
  w' = step (ESelectWalletsForUpdate (merge_sort String.le ids)) (store w) w.
Proof.
  rewrite lockWalletsInOrder_run. case_bool_decide as Hlen; [discriminate|].
  intros [= <- <-]. apply locked_rows_length in Hlen as [Hnd Hall].
  split; [exact Hnd|]. split; [exact Hall|]. split; [|reflexivity].
  intros id Hin. by apply to_wallet_map_locked.
Qed.

End statement_runs.

(** * [executeTransfer] *)
Section transfer_facts.



Lemma executeTransfer_Return a w r w' :
  executeTransfer a w = (Return r, w') ->
  exists srow drow,
    sourceWalletId a ≠ destWalletId a /\
    wallet_row (store w) (sourceWalletId a) = Some srow /\
    wallet_row (store w) (destWalletId a) = Some drow /\
    (wr_allow_negative srow = true \/ amount a <= wr_balance srow) /\
    0 < amount a /\
    key_taken (idempotencyKey a) (transactions (store w)) = false /\
    let txnId := uuid_source w (uuid_used w) in
    r = transfer_result a txnId (wr_balance srow) (wr_balance drow) (now w) /\
    store w' = transferred a txnId (wr_balance srow) (wr_balance drow) (now w)
                 (store w) /\
    same_env w w' /\
    uuid_used w' = S (uuid_used w) /\
    log w' = (log w ++
      [ESelectWalletsForUpdate
         (merge_sort String.le [sourceWalletId a; destWalletId a]);
       EUpdateWallet (sourceWalletId a) (wr_balance srow - amount a);
       EUpdateWallet (destWalletId a) (wr_balance drow + amount a);
       EInsertTransaction txnId;
       EInsertLedgerEntry txnId (sourceWalletId a) DEBIT;
       EInsertLedgerEntry txnId (destWalletId a) CREDIT])%list.
Proof.
  unfold executeTransfer. intros H.
  apply bind_Return_inv in H as (wm & w1 & Hlock & H).
  apply lockWalletsInOrder_Return in Hlock as (Hnd & Hall & Hwm & ->).
  rewrite !Hwm in H by (rewrite ?elem_of_cons; tauto).
  destruct (wallet_row (store w) (sourceWalletId a)) as [srow|] eqn:Hs;
    [|discriminate].
  destruct (negb (wr_allow_negative srow) && (wr_balance srow <? amount a))
    eqn:Hbal; [discriminate|].
  destruct (wallet_row (store w) (destWalletId a)) as [drow|] eqn:Hd;
    [|discriminate].
  apply bind_Return_inv in H as (u1 & w2 & Hu1 & H).
  apply update_wallet_balance_Return in Hu1 as (_ & _ & ->).
  apply bind_Return_inv in H as (u2 & w3 & Hu2 & H).
  apply update_wallet_balance_Return in Hu2 as (_ & _ & ->).
  apply bind_Return_inv in H as (txnId & w4 & Hid & H).
  injection Hid as <- <-.
  apply bind_Return_inv in H as (u3 & w5 & Hu3 & H).
  apply insert_transaction_Return in Hu3 as (Hamt & Hkey & ->).
  apply bind_Return_inv in H as (u4 & w6 & Hu4 & H).
  apply insert_ledger_entry_Return in Hu4 as ->.
  apply bind_Return_inv in H as (u5 & w7 & Hu5 & H).
  apply insert_ledger_entry_Return in Hu5 as ->.
  injection H as <- <-.
  exists srow, drow.
  split. { apply NoDup_cons in Hnd as [Hnd _]. rewrite list_elem_of_singleton in Hnd. exact Hnd. }
  split; [reflexivity|]. split; [reflexivity|].
  split.
  { apply andb_false_iff in Hbal as [Hb|Hb].
    - left. by destruct (wr_allow_negative srow).
    - right. apply Z.ltb_ge in Hb. exact Hb. }
  split; [exact Hamt|].
  split. { simpl in Hkey. rewrite !transactions_set_balance in Hkey. exact Hkey. }
  simpl. split; [reflexivity|]. split; [reflexivity|].
  split.
  { repeat split. eexists. simpl. rewrite <- !app_assoc. reflexivity. }
  split; [reflexivity|].
  rewrite <- !app_assoc. reflexivity.
Qed.

End transfer_facts.

(** * Sums over the wallets *)
Section sums.
Context (f : Wallet -> Z).

Lemma sum_wallets_delete m id wl :
  m !! id = Some wl -> sum_wallets f m = f wl + sum_wallets f (delete id m).
Proof.
  intros H. unfold sum_wallets.
  apply (map_fold_delete_L (fun _ wl acc => f wl + acc)); [|exact H].
  intros. lia.
Qed.

Lemma sum_wallets_insert_fresh m id wl :
  m !! id = None -> sum_wallets f (<[id := wl]> m) = f wl + sum_wallets f m.
Proof.
  intros H. unfold sum_wallets.
  apply (map_fold_insert_L (fun _ wl acc => f wl + acc)); [|exact H].
  intros. lia.
Qed.

Lemma sum_wallets_insert m id wl wl' :
  m !! id = Some wl ->
  sum_wallets f (<[id := wl']> m) = sum_wallets f m - f wl + f wl'.
Proof.
  intros H. rewrite (sum_wallets_delete m id wl H).
  rewrite <- (insert_delete_eq m id wl').
  rewrite sum_wallets_insert_fresh by apply lookup_delete_eq. lia.
Qed.

End sums.

Section row_facts.

Lemma wallet_row_Some s id r :
  wallet_row s id = Some r ->
  exists wl, wallets s !! id = Some wl /\
    wr_id r = id /\ wr_user_id r = w_user_id wl /\
    wr_balance r = w_balance wl /\
    wr_allow_negative r = w_allow_negative wl /\
    wr_asset_type_id r = w_asset_type_id wl /\
    exists a, asset_types s !! w_asset_type_id wl = Some a /\
              wr_asset_code r = at_code a.
Proof.
  unfold wallet_row, join_asset. destruct (wallets s !! id) as [wl|]; [|discriminate].
  simpl. destruct (asset_types s !! w_asset_type_id wl) as [a|] eqn:Ha; [|discriminate].
  intros [= <-]. exists wl. simpl. repeat split; eauto.
Qed.

End row_facts.

(** * Conservation *)
Section conservation.



Lemma wallets_transferred a txnId t s sw dw :
  sourceWalletId a ≠ destWalletId a ->
  wallets s !! sourceWalletId a = Some sw ->
  wallets s !! destWalletId a = Some dw ->
  wallets (transferred a txnId (w_balance sw) (w_balance dw) t s) =
    <[destWalletId a := credited dw (amount a) t]>
      (<[sourceWalletId a := debited sw (amount a) t]> (wallets s)).
Proof.
  intros Hne Hs Hd. unfold transferred. simpl.
  unfold set_balance at 2. rewrite Hs.
  unfold set_balance. simpl. rewrite lookup_insert_ne by exact Hne.
  rewrite Hd. reflexivity.
Qed.

Lemma executeTransfer_wallets a w r w' :
  executeTransfer a w = (Return r, w') ->
  exists sw dw,
    sourceWalletId a ≠ destWalletId a /\
    wallets (store w) !! sourceWalletId a = Some sw /\
    wallets (store w) !! destWalletId a = Some dw /\
    wallets (store w') =
      <[destWalletId a := credited dw (amount a) (now w)]>
        (<[sourceWalletId a := debited sw (amount a) (now w)]>
           (wallets (store w))).
Proof.
  intros H. apply executeTransfer_Return in H
    as (srow & drow & Hne & Hs & Hd & _ & _ & _ & _ & Hst & _).
  apply wallet_row_Some in Hs as (sw & Hsw & _ & _ & Hsb & _).
  apply wallet_row_Some in Hd as (dw & Hdw & _ & _ & Hdb & _).
  exists sw, dw. split; [exact Hne|]. split; [exact Hsw|]. split; [exact Hdw|].
  rewrite Hst, Hsb, Hdb. by apply wallets_transferred.
Qed.

End conservation.

Section conservation_theorem.



End conservation_theorem.

(** * [withTransaction] *)
Section transaction_facts.
Context {A : Type}.




Lemma withTransaction_run (fn : M A) w :
  withTransaction fn w =
    match fn (begun w) with
    | (Return a, w1) => (Return a, committed w1)
    | (Throw e, w1) => (Throw e, rolled_back w1)
    end.
Proof.
  unfold withTransaction, connect, release, finally, try_catch, begin, commit,
    rollback, bind, emit, ret, throw, begun, committed, rolled_back.
  simpl. rewrite <- app_assoc. simpl.
  destruct (fn _) as [[a|e] w1]; simpl.
  - rewrite <- app_assoc. reflexivity.
  - destruct (snapshot w1); simpl; rewrite <- app_assoc; reflexivity.
Qed.

(** Whatever fails inside [withTransaction], the tables are those of before. *)
Lemma withTransaction_Throw (fn : M A) E w e w' :
  sound same_env E fn ->
  withTransaction fn w = (Throw e, w') ->
  store w' = store w /\ snapshot w' = None /\ E e.
Proof.
  intros Hfn. rewrite withTransaction_run.
  destruct (fn (begun w)) as [[a|e'] w1] eqn:Hrun; [discriminate|].
  intros [= <- <-]. destruct (Hfn _ _ _ Hrun) as [(Hsnap & _) HE].
  unfold rolled_back. rewrite Hsnap. simpl. auto.
Qed.

Lemma withTransaction_Return (fn : M A) w a w' :
  withTransaction fn w = (Return a, w') ->
  exists w1, fn (begun w) = (Return a, w1) /\ w' = committed w1.
Proof.
  rewrite withTransaction_run.
  destruct (fn (begun w)) as [[a'|e'] w1] eqn:Hrun; [|discriminate].
  intros [= <- <-]. eauto.
Qed.

End transaction_facts.

(** * Insufficient balance *)
Section insufficient_balance.

Lemma executeTransfer_insufficient a w srow :
  sourceWalletId a ≠ destWalletId a ->
  wallet_row (store w) (sourceWalletId a) = Some srow ->
  is_Some (wallet_row (store w) (destWalletId a)) ->
  wr_allow_negative srow = false ->
  wr_balance srow < amount a ->
  executeTransfer a w =
    (Throw (App (InsufficientBalanceError (sourceWalletId a) (amount a)
                   (wr_balance srow))),
     after_lock [sourceWalletId a; destWalletId a] w).
Proof.
  intros Hne Hs Hd Hneg Hlt. unfold executeTransfer, bind.
  rewrite lockWalletsInOrder_run.
  rewrite bool_decide_eq_false_2.
  2:{ intros Hlen. apply Hlen. apply locked_rows_length. split.
      - apply NoDup_cons. split; [by rewrite list_elem_of_singleton|].
        apply NoDup_singleton.
      - intros id [->|[->|[]%elem_of_nil]%elem_of_cons]%elem_of_cons; eauto. }
  rewrite to_wallet_map_locked by (rewrite elem_of_cons; tauto).
  rewrite Hs, Hneg. simpl.
  apply Z.ltb_lt in Hlt. rewrite Hlt. reflexivity.
Qed.



End insufficient_balance.


(** * [lockWalletsInOrder] *)
Section lock_theorem.

#[local] Instance by_id_total : Total by_id.
Proof. intros r1 r2. unfold by_id. apply String.le_total. Qed.



End lock_theorem.

(** * The three operations *)
Section operation_facts.

Lemma topUp_operation : topUp = operation topup_flow.
Proof. reflexivity. Qed.

Lemma issueBonus_operation : issueBonus = operation bonus_flow.
Proof. reflexivity. Qed.

Lemma purchase_operation : purchase = operation purchase_flow.
Proof. reflexivity. Qed.

Lemma is_operation_flow op : is_operation op -> exists f, op = operation f.
Proof.
  intros [-> | [-> | ->]];
    [exists topup_flow|exists bonus_flow|exists purchase_flow]; reflexivity.
Qed.

Lemma str_truthy_empty o : str_truthy o = false <-> empty o.
Proof.
  unfold empty. destruct o as [s|]; simpl.
  - rewrite negb_false_iff, String.eqb_eq. split; [intros ->; by right|].
    intros [H|H]; [discriminate|]. by injection H as ->.
  - split; [by left|reflexivity].
Qed.

Lemma str_truthy_Some k : str_truthy (Some k) = true <-> k ≠ "".
Proof.
  simpl. rewrite negb_true_iff. rewrite <- String.eqb_neq. reflexivity.
Qed.

Lemma bad_amount_spec v : bad_amount v = false <-> positive_integer v.
Proof.
  unfold bad_amount, positive_integer. split.
  - destruct v; simpl; try discriminate.
    intros H%Z.leb_gt. eauto.
  - intros (z & -> & Hz). simpl. by apply Z.leb_gt.
Qed.

Lemma valid_input_spec u c v :
  valid_input u c v <->
  str_truthy u = true /\ str_truthy c = true /\ bad_amount v = false.
Proof.
  unfold valid_input. rewrite <- bad_amount_spec, <- !str_truthy_empty.
  rewrite !not_false_iff_true. reflexivity.
Qed.

Lemma valid_input_decide u c v : valid_input u c v \/ ~ valid_input u c v.
Proof.
  rewrite valid_input_spec.
  destruct (str_truthy u), (str_truthy c), (bad_amount v); intuition congruence.
Qed.

Lemma operation_valid f u c v k d md :
  valid_input u c v ->
  operation f u c v k d md =
    withTransaction
      (operation_body f (default "" u) (default "" c) (number_value v) k d md).
Proof.
  intros (Hu & Hc & Hv)%valid_input_spec. unfold operation.
  rewrite Hu, Hc, Hv. reflexivity.
Qed.

Lemma operation_invalid f u c v k d md w :
  ~ valid_input u c v ->
  exists msg, operation f u c v k d md w = (Throw (App (ValidationError msg)), w).
Proof.
  intros Hinv. unfold operation.
  destruct (str_truthy u) eqn:Hu; [|eexists; reflexivity].
  destruct (str_truthy c) eqn:Hc; [|eexists; reflexivity].
  destruct (bad_amount v) eqn:Hv; [eexists; reflexivity|].
  exfalso. apply Hinv. by apply valid_input_spec.
Qed.

Lemma sound_operation_body f u c amt k d md :
  sound same_env not_validation (operation_body f u c amt k d md).
Proof.
  unfold operation_body.
  apply sound_bind; [apply _|apply sound_checkIdempotencyKey|].
  intros [row|]; [sound_tac|].
  apply sound_bind; [apply _|apply sound_findWallet|intros userWallet].
  apply sound_bind; [apply _|apply sound_findWallet|intros systemWallet].
  apply sound_bind; [apply _|apply sound_executeTransfer|intros result].
  apply sound_bind; [apply _|apply sound_storeIdempotencyKey|intros _].
  sound_tac.
Qed.

Lemma operation_valid_run f u c v k d md w o w' :
  valid_input u c v ->
  operation f u c v k d md w = (o, w') ->
  (forall e, o = Throw e -> not_validation e) /\
  exists l, log w' = log w ++ [EConnect; EBegin] ++ l.
Proof.
  intros Hv. rewrite (operation_valid _ _ _ _ _ _ _ Hv).
  rewrite withTransaction_run.
  destruct (operation_body _ _ _ _ _ _ _ (begun w)) as [[a|e] w1] eqn:Hrun;
    intros [= <- <-];
    destruct (sound_operation_body _ _ _ _ _ _ _ _ _ _ Hrun)
      as [(_ & _ & _ & l & Hl) HE].
  - split; [discriminate|].
    exists (l ++ [ECommit; ERelease]). simpl. rewrite Hl. simpl.
    rewrite <- !app_assoc. reflexivity.
  - split.
    + intros e' [= <-]. by apply HE.
    + unfold rolled_back.
      destruct (snapshot w1); simpl; rewrite Hl; simpl;
        exists (l ++ [ERollback; ERelease]);
        rewrite <- !app_assoc; reflexivity.
Qed.

(** Whatever makes one of the operations fail, the tables are those of
    before the call. *)
Lemma operation_failure_rolls_back f u c v k d md w e w' :
  operation f u c v k d md w = (Throw e, w') -> store w' = store w.
Proof.
  destruct (valid_input_decide u c v) as [Hv|Hv].
  - rewrite (operation_valid _ _ _ _ _ _ _ Hv). intros H.
    eapply withTransaction_Throw in H; [|apply sound_operation_body]. tauto.
  - destruct (operation_invalid f u c v k d md w Hv) as [msg Hrun].
    rewrite Hrun. by intros [= _ <-].
Qed.

End operation_facts.

(** * The idempotency store *)
Section idempotency_facts.

Lemma checkIdempotencyKey_run key w :
  checkIdempotencyKey key w =
    match key with
    | Some k =>
        if str_truthy (Some k)
        then (Return (cached w k), step (ESelectIdempotency k) (store w) w)
        else (Return None, w)
    | None => (Return None, w)
    end.
Proof.
  unfold checkIdempotencyKey, cached. destruct key as [k|]; [|reflexivity].
  destruct (str_truthy (Some k)); [|reflexivity]. simpl negb. cbv iota.
  unfold select_idempotency, bind, emit, get_store, get_now, ret, step. simpl.
  destruct (idempotency_store (store w) !! k) as [row|]; [|reflexivity].
  destruct (now w <? i_expires_at row); reflexivity.
Qed.

Lemma checkIdempotencyKey_store key w o w' :
  checkIdempotencyKey key w = (o, w') -> store w' = store w /\ now w' = now w.
Proof.
  rewrite checkIdempotencyKey_run. destruct key as [k|].
  - destruct (str_truthy (Some k)); by intros [= <- <-].
  - by intros [= <- <-].
Qed.

Lemma checkIdempotencyKey_Some key w row w' :
  checkIdempotencyKey key w = (Return (Some row), w') ->
  exists k, key = Some k /\ k ≠ "" /\ cached w k = Some row.
Proof.
  rewrite checkIdempotencyKey_run. destruct key as [k|]; [|discriminate].
  destruct (str_truthy (Some k)) eqn:Hk; [|discriminate].
  intros [= Hc _]. exists k. split; [reflexivity|].
  split; [by apply str_truthy_Some|exact Hc].
Qed.

Lemma storeIdempotencyKey_Return key r code w u w' :
  storeIdempotencyKey key r code w = (Return u, w') ->
  wallets (store w') = wallets (store w) /\
  transactions (store w') = transactions (store w) /\
  ledger_entries (store w') = ledger_entries (store w) /\
  asset_types (store w') = asset_types (store w).
Proof.
  unfold storeIdempotencyKey. destruct (negb _); [by intros [= <- <-]|].
  unfold insert_idempotency, bind, emit, get_store, get_now, throw, ret,
    put_store. simpl.
  destruct (255 <? _); [discriminate|].
  destruct (idempotency_store (store w) !! _); by intros [= <- <-].
Qed.

End idempotency_facts.

(** * What a successful operation did *)
Section operation_runs.

Lemma operation_body_Return f u c amt k d md w res w' :
  operation_body f u c amt k d md w = (Return res, w') ->
  (exists row key,
     k = Some key /\ key ≠ "" /\ cached w key = Some row /\
     res = Replay (i_response row) /\ store w' = store w) \/
  (exists uw sw r w1 w2,
     is_wallet_of (store w) (wr_id uw) u c /\
     is_wallet_of (store w) (wr_id sw) (f_system f) c /\
     store w1 = store w /\
     executeTransfer (transfer_args f uw sw c amt k d md) w1 = (Return r, w2) /\
     res = Fresh r /\
     wallets (store w') = wallets (store w2) /\
     transactions (store w') = transactions (store w2) /\
     ledger_entries (store w') = ledger_entries (store w2)).
Proof.
  unfold operation_body. intros H.
  apply bind_Return_inv in H as (o & w0 & Hcheck & H).
  destruct (checkIdempotencyKey_store _ _ _ _ Hcheck) as [Hs0 _].
  destruct o as [row|].
  - left. injection H as <- <-.
    apply checkIdempotencyKey_Some in Hcheck as (key & -> & Hk & Hc).
    exists row, key. auto.
  - right.
    apply bind_Return_inv in H as (uw & w1 & Huw & H).
    apply findWallet_Return in Huw as (Huw & _ & ->).
    apply bind_Return_inv in H as (sw & w2 & Hsw & H).
    apply findWallet_Return in Hsw as (Hsw & _ & ->).
    apply bind_Return_inv in H as (r & w3 & Hr & H).
    apply bind_Return_inv in H as (u0 & w4 & Hst & H).
    injection H as <- <-.
    apply storeIdempotencyKey_Return in Hst as (Hw & Ht & Hl & _).
    simpl in Hsw. rewrite Hs0 in Huw, Hsw.
    eexists uw, sw, r, _, w3. split; [exact Huw|]. split; [exact Hsw|].
    split; [|split; [exact Hr|split; [reflexivity|auto]]].
    simpl. exact Hs0.
Qed.

Lemma operation_Return f u c v k d md w res w' :
  operation f u c v k d md w = (Return res, w') ->
  valid_input u c v /\
  exists w1,
    operation_body f (default "" u) (default "" c) (number_value v) k d md
      (begun w) = (Return res, w1) /\
    w' = committed w1.
Proof.
  intros H. destruct (valid_input_decide u c v) as [Hv|Hv].
  - split; [exact Hv|]. rewrite (operation_valid _ _ _ _ _ _ _ Hv) in H.
    by apply withTransaction_Return in H.
  - destruct (operation_invalid f u c v k d md w Hv) as [msg Hrun].
    rewrite Hrun in H. discriminate.
Qed.

Lemma operation_moves f user code v k d md w res w' :
  operation f (Some user) (Some code) v k d md w = (Return res, w') ->
  replays (store w) (store w') res \/
  moves (store w) (store w') res
    (if f_user_pays f then user else f_system f)
    (if f_user_pays f then f_system f else user)
    code (f_type f).
Proof.
  intros H. apply operation_Return in H as (_ & w1 & H & ->).
  apply operation_body_Return in H
    as [(row & key & _ & _ & _ & -> & Hs)
       |(uw & sw & r & w2 & w3 & Huw & Hsw & Hs & Hrun & -> & Hw & Ht & Hl)].
  - left. split; [reflexivity|exact Hs].
  - right. simpl in Huw, Hsw, Hs.
    apply executeTransfer_Return in Hrun
      as (srow & drow & _ & _ & _ & _ & _ & _ & Hr & Hst & _).
    unfold moves. eexists _, _, _. simpl.
    rewrite Ht, Hl, Hst, Hr, Hs. unfold transferred. simpl.
    rewrite !transactions_set_balance, !ledger_entries_set_balance.
    rewrite <- app_assoc. simpl.
    split; [reflexivity|]. split; [reflexivity|]. split; [reflexivity|].
    split; [reflexivity|]. split; [reflexivity|].
    split; [destruct (f_user_pays f); assumption|].
    split; [destruct (f_user_pays f); assumption|].
    repeat split; reflexivity.
Qed.

End operation_runs.

(** * The claims about the three operations *)
Section operation_theorems.

(** C2.  When the lookup inside the transaction finds a record of the key
    that has not expired, each of [topUp], [issueBonus] and [purchase]
    returns the stored response marked [idempotent]; the only statement
    issued between BEGIN and COMMIT is that lookup (no wallet is looked up, no
    lock is taken, nothing is written) and the tables are left as they
    were. *)
Theorem cached_key_replays (op : Operation) u c v k d md row w :
  is_operation op ->
  valid_input u c v ->
  k ≠ "" ->
  idempotency_store (store w) !! k = Some row ->
  now w < i_expires_at row ->
  exists res w',
    op u c v (Some k) d md w = (Return res, w') /\
    payload res = i_response row /\
    idempotent res = true /\
    store w' = store w /\
    log w' =
      log w ++ [EConnect; EBegin; ESelectIdempotency k; ECommit; ERelease].
Proof.
  intros Hop Hv Hk Hrow Hfresh.
  destruct (is_operation_flow op Hop) as [f ->].
  exists (Replay (i_response row)).
  eexists. rewrite (operation_valid _ _ _ _ _ _ _ Hv).
  rewrite withTransaction_run. unfold operation_body, bind.
  rewrite checkIdempotencyKey_run.
  apply str_truthy_Some in Hk. rewrite Hk.
  unfold cached. simpl. rewrite Hrow.
  apply Z.ltb_lt in Hfresh. rewrite Hfresh. simpl.
  split; [reflexivity|]. split; [reflexivity|]. split; [reflexivity|].
  split; [reflexivity|]. simpl. rewrite <- ?app_assoc. reflexivity.
Qed.

Lemma cached_key_replays_witness :
  exists res w',
    purchase (Some "alice") (Some "GOLD_COINS") (JInt 500) (Some "k1") None
      None Scenario.replay_world = (Return res, w') /\
    payload res = Scenario.earlier_result /\
    idempotent res = true /\
    store w' = store Scenario.replay_world.
Proof.
  destruct (cached_key_replays purchase (Some "alice") (Some "GOLD_COINS")
              (JInt 500) "k1" None None Scenario.earlier_row
              Scenario.replay_world)
    as (res & w' & Hrun & Hp & Hi & Hs & _).
  - right. right. reflexivity.
  - split; [intros [[=]|[=]]|split; [intros [[=]|[=]]|]].
    exists 500. split; [reflexivity|lia].
  - discriminate.
  - vm_compute. reflexivity.
  - vm_compute. reflexivity.
  - exists res, w'. auto.
Defined.

(** C6.  Each of [topUp], [issueBonus] and [purchase] fails with a
    [ValidationError] when [userId] is missing or empty, when [assetCode] is
    missing or empty, or when [amount] is not a strictly positive integer;
    it does so before anything is sent to the store, so the world is exactly
    the one of before the call.  Otherwise the call opens a transaction and
    whatever it ends with is not a [ValidationError].  Zero, negative numbers
    and values that are not integers are not strictly positive integers. *)
Theorem validation_comes_first (op : Operation) u c v k d md w :
  is_operation op ->
  (empty u \/ empty c \/ ~ positive_integer v ->
   exists msg, op u c v k d md w = (Throw (App (ValidationError msg)), w)) /\
  (valid_input u c v ->
   forall o w', op u c v k d md w = (o, w') ->
     (forall msg, o ≠ Throw (App (ValidationError msg))) /\
     exists l, log w' = log w ++ [EConnect; EBegin] ++ l) /\
  (forall z, z <= 0 -> ~ positive_integer (JInt z)) /\
  (forall x, isInteger x = false -> ~ positive_integer x).
Proof.
  intros Hop. destruct (is_operation_flow op Hop) as [f ->].
  split; [|split; [|split]].
  - intros Hbad. apply operation_invalid. intros (Hu & Hc & Hv). tauto.
  - intros Hv o w' Hrun.
    destruct (operation_valid_run _ _ _ _ _ _ _ _ _ _ Hv Hrun) as [HE Hlog].
    split; [|exact Hlog].
    intros msg ->. apply (HE _ eq_refl). by exists msg.
  - intros z Hz (z' & [= <-] & Hpos). lia.
  - intros x Hx (z & -> & _). discriminate.
Qed.

Lemma validation_comes_first_witness :
  (exists msg,
     topUp (Some "alice") (Some "GOLD_COINS") (JInt 0) None None None
       Scenario.seed_world =
       (Throw (App (ValidationError msg)), Scenario.seed_world)) /\
  (exists msg,
     purchase (Some "") (Some "GOLD_COINS") (JInt 5) None None None
       Scenario.seed_world =
       (Throw (App (ValidationError msg)), Scenario.seed_world)).
Proof.
  split.
  - apply (validation_comes_first topUp); [by left|].
    right. right. intros (z & [= <-] & Hz). lia.
  - apply (validation_comes_first purchase); [by right; right|].
    left. by right.
Defined.

(** C9, the claim as stated fails: this call of [topUp] succeeds, and it
    executes no transfer: it is answered from the idempotency store, no
    wallet is read or written and no transaction or ledger entry is added. *)
Lemma replay_executes_no_transfer_counterexample :
  exists w',
    topUp (Some "alice") (Some "GOLD_COINS") (JInt 500) (Some "k1") None None
      Scenario.replay_world =
      (Return (Replay Scenario.earlier_result), w') /\
    store w' = store Scenario.replay_world /\
    transactions (store w') = [] /\
    ledger_entries (store w') = [] /\
    log w' = [EConnect; EBegin; ESelectIdempotency "k1"; ECommit; ERelease].
Proof.
  eexists. split; [vm_compute; reflexivity|].
  vm_compute. repeat split; reflexivity.
Qed.

(** C9, amended.  A successful [topUp] or [issueBonus] that is not answered
    from the idempotency store executes one transfer from the Treasury wallet
    for the asset to the user's wallet for the asset, of kind TOPUP and BONUS
    respectively; a successful [purchase] that is not answered from the
    idempotency store executes one from the user's wallet to the Revenue
    wallet for the asset, of kind PURCHASE.  A successful call answered from
    the idempotency store leaves the tables as they were. *)
Theorem operations_direction user code v k d md w res w' :
  (topUp (Some user) (Some code) v k d md w = (Return res, w') ->
   (idempotent res = false ->
    moves (store w) (store w') res TREASURY user code TOPUP) /\
   (idempotent res = true -> store w' = store w)) /\
  (issueBonus (Some user) (Some code) v k d md w = (Return res, w') ->
   (idempotent res = false ->
    moves (store w) (store w') res TREASURY user code BONUS) /\
   (idempotent res = true -> store w' = store w)) /\
  (purchase (Some user) (Some code) v k d md w = (Return res, w') ->
   (idempotent res = false ->
    moves (store w) (store w') res user REVENUE code PURCHASE) /\
   (idempotent res = true -> store w' = store w)).
Proof.
  assert (forall f,
            operation f (Some user) (Some code) v k d md w = (Return res, w') ->
            (idempotent res = false ->
             moves (store w) (store w') res
               (if f_user_pays f then user else f_system f)
               (if f_user_pays f then f_system f else user)
               code (f_type f)) /\
            (idempotent res = true -> store w' = store w)) as Hflow.
  { intros f H. apply operation_moves in H as [[Hi Hs]|Hm].
    - split; [congruence|by intros _].
    - split; [by intros _|]. destruct Hm as (? & ? & ? & Hi & _). congruence. }
  split; [|split]; intros H.
  - rewrite topUp_operation in H. by apply Hflow in H.
  - rewrite issueBonus_operation in H. by apply Hflow in H.
  - rewrite purchase_operation in H. by apply Hflow in H.
Qed.

Lemma operations_direction_witness :
  exists res w',
    topUp (Some "alice") (Some "GOLD_COINS") (JInt 500) (Some "k1")
      (Some "buy") None Scenario.seed_world = (Return res, w') /\
    moves (store Scenario.seed_world) (store w') res TREASURY "alice"
      "GOLD_COINS" TOPUP.
Proof.
  destruct (topUp (Some "alice") (Some "GOLD_COINS") (JInt 500) (Some "k1")
              (Some "buy") None Scenario.seed_world) as [o w'] eqn:Hrun.
  pose proof Hrun as Hval. vm_compute in Hval.
  injection Hval as Ho _. subst o.
  eexists _, w'. split; [reflexivity|].
  apply (proj1 (operations_direction _ _ _ _ _ _ _ _ _) Hrun). reflexivity.
Defined.

End operation_theorems.

(** * [getBalance] *)
Section balance_theorem.

#[local] Instance by_code_total : Total by_code.
Proof. intros r1 r2. unfold by_code. apply String.le_total. Qed.

Lemma elem_of_balance_rows s user asset r :
  r ∈ balance_rows s user asset <->
  wallet_row s (wr_id r) = Some r /\ wr_user_id r = user /\
  code_matches asset (wr_asset_code r).
Proof.
  unfold balance_rows. rewrite merge_sort_Permutation.
  rewrite list_elem_of_filter, elem_of_wallet_rows. tauto.
Qed.

Lemma getBalance_run user code w :
  user ≠ "" ->
  getBalance (Some user) code w =
    (let asset := if str_truthy code then code else None in
     let rows := balance_rows (store w) user asset in
     (if bool_decide (rows = [])
      then Throw (App (NotFoundError "Wallet" user))
      else Return (to_balance <$> rows),
      step (ESelectBalances user asset) (store w) w)).
Proof.
  intros Hu%str_truthy_Some. unfold getBalance. rewrite Hu. simpl negb. cbv iota.
  unfold select_balances, bind, emit, get_store, ret, throw, step. simpl.
  fold (balance_rows (store w) user (if str_truthy code then code else None)).
  destruct (balance_rows _ _ _) as [|r rows]; reflexivity.
Qed.



End balance_theorem.

(** * [getTransactions] and its route *)
Section history_theorem.

#[local] Instance newest_first_total : Total newest_first.
Proof. intros r1 r2. unfold newest_first. lia. Qed.

#[local] Instance newest_first_trans : Transitive newest_first.
Proof. intros r1 r2 r3. unfold newest_first. lia. Qed.

Lemma StronglySorted_sublist {A} (R : relation A) (l k : list A) :
  l `sublist_of` k -> StronglySorted R k -> StronglySorted R l.
Proof.
  induction 1 as [|x l k Hsub IH|x l k Hsub IH]; intros Hk.
  - constructor.
  - apply StronglySorted_cons in Hk as [Hall Hk].
    apply StronglySorted_cons. split; [|by apply IH].
    eapply Forall_forall. intros y Hy.
    eapply Forall_forall in Hall; [exact Hall|].
    eapply elem_of_sublist; [exact Hy|exact Hsub].
  - apply StronglySorted_cons in Hk as [_ Hk]. by apply IH.
Qed.

Lemma elem_of_history_of s user asset t row :
  row ∈ history_of s user asset t <->
  exists le a wl,
    le ∈ ledger_entries s /\ le_transaction_id le = t_id t /\
    asset_types s !! t_asset_type_id t = Some a /\
    code_matches asset (at_code a) /\
    wallets s !! le_wallet_id le = Some wl /\ w_user_id wl = user /\
    row = history_row s user asset t le a.
Proof.
  unfold history_of.
  destruct (asset_types s !! t_asset_type_id t) as [a|] eqn:Ha.
  - case_bool_decide as Hc.
    + rewrite list_elem_of_omap. split.
      * intros (le & Hle & Hrow). case_bool_decide as Hid; [|discriminate].
        destruct (wallets s !! le_wallet_id le) as [wl|] eqn:Hwl; [|discriminate].
        case_bool_decide as Hu; [|discriminate].
        injection Hrow as <-. exists le, a, wl. auto 10.
      * intros (le & a' & wl & Hle & Hid & [= <-] & _ & Hwl & Hu & ->).
        exists le. split; [exact Hle|].
        rewrite bool_decide_eq_true_2 by exact Hid. rewrite Hwl.
        rewrite bool_decide_eq_true_2 by exact Hu. reflexivity.
    + split; [by intros ?%elem_of_nil|].
      intros (le & a' & wl & _ & _ & [= <-] & Hc' & _). by destruct Hc.
  - split; [by intros ?%elem_of_nil|].
    intros (le & a' & wl & _ & _ & [=] & _).
Qed.

Lemma elem_of_full_history s user asset row :
  row ∈ full_history s user asset <-> in_history s user asset row.
Proof.
  unfold full_history, in_history. rewrite merge_sort_Permutation.
  rewrite list_elem_of_bind. split.
  - intros (t & Hrow & Ht). apply elem_of_history_of in Hrow
      as (le & a & wl & H). exists t, le, a, wl. tauto.
  - intros (t & le & a & wl & Ht & H). exists t. split; [|exact Ht].
    apply elem_of_history_of. exists le, a, wl. exact H.
Qed.

Lemma getTransactions_Return user code limit offset w vs w' :
  getTransactions (Some user) code limit offset w = (Return vs, w') ->
  let asset := if str_truthy code then code else None in
  0 <= default 20 limit /\ 0 <= default 0 offset /\
  vs = to_view <$>
         take (Z.to_nat (default 20 limit))
           (drop (Z.to_nat (default 0 offset))
              (full_history (store w) user asset)) /\
  w' = step (ESelectHistory user asset (default 20 limit) (default 0 offset))
         (store w) w.
Proof.
  unfold getTransactions. destruct (negb (str_truthy (Some user))); [discriminate|].
  unfold select_history, bind, emit, get_store, ret, throw, step,
    full_history. simpl.
  destruct (default 20 limit <? 0) eqn:Hl; [discriminate|].
  destruct (default 0 offset <? 0) eqn:Ho; [discriminate|].
  intros [= <- <-]. apply Z.ltb_ge in Hl, Ho. auto.
Qed.




End history_theorem.

(** * The error handler *)
Section error_handler_theorem.
Context (production : bool) (query : JsValue -> M (list IdempotencyRow)).

(** C3.  When an error of the store with the code of a uniqueness violation
    reaches the error handler and the request carries an idempotency key,
    the handler reads the idempotency store again with that key: if a record
    comes back, the answer is its stored response, as a successful idempotent
    replay with status 200; if none comes back, or if the read itself fails,
    the answer is DUPLICATE_TRANSACTION with status 409.  So
    DUPLICATE_TRANSACTION is never the answer when the read returned a
    record. *)
Theorem duplicate_key_recovery msg req w :
  let key := available_key req in
  let answer := errorHandler production query (Pg "23505" msg) req w in
  truthy key = true ->
  (forall row rows w1,
     query key w = (Return (row :: rows), w1) ->
     answer = (Return (replayed row), w1)) /\
  (forall w1,
     query key w = (Return [], w1) ->
     answer = (Return duplicate_transaction, w1)) /\
  (forall e w1,
     query key w = (Throw e, w1) ->
     answer = (Return duplicate_transaction, w1)) /\
  (answer.1 = Return duplicate_transaction ->
   forall row rows w1, query key w ≠ (Return (row :: rows), w1)) /\
  status duplicate_transaction = 409 /\
  body duplicate_transaction =
    Failure (plain_error "DUPLICATE_TRANSACTION"
               "This transaction has already been processed").
Proof.
  intros key answer Hkey. subst answer.
  unfold errorHandler. rewrite bool_decide_eq_true_2 by reflexivity.
  fold (available_key req). fold key. rewrite Hkey.
  unfold try_catch, bind.
  split; [|split; [|split; [|split; [|split]]]]; try reflexivity.
  - intros row rows w1 ->. reflexivity.
  - intros w1 ->. reflexivity.
  - intros e w1 ->. reflexivity.
  - destruct (query key w) as [[[|row rows]|e] w1]; simpl; try discriminate.
Qed.

End error_handler_theorem.

Lemma duplicate_key_recovery_witness :
  exists w',
    errorHandler false Scenario.lookup_by_key
      (Pg "23505" "duplicate key value violates unique constraint")
      Scenario.keyed_request Scenario.replay_world =
      (Return (replayed Scenario.earlier_row), w').
Proof.
  eexists.
  apply (proj1 (duplicate_key_recovery false Scenario.lookup_by_key _
                  Scenario.keyed_request Scenario.replay_world eq_refl)
           Scenario.earlier_row []).
  vm_compute. reflexivity.
Defined.

(** * The idempotency middleware in front of the routes *)
Section middleware_theorem.

Lemma guarded_run m w :
  guarded m w =
    match m w with
    | (Return res, w') => (Return (Responded res), w')
    | (Throw e, w') => (Return (Next e), w')
    end.
Proof.
  unfold guarded, try_catch, bind, ret. by destruct (m w) as [[res|e] w'].
Qed.

Lemma is_transfer_route_operation route :
  is_transfer_route route ->
  exists op, is_operation op /\ route = post_operation op.
Proof.
  intros [H | [H | H]].
  - exists topUp. split; [left; reflexivity|exact H].
  - exists issueBonus. split; [right; left; reflexivity|exact H].
  - exists purchase. split; [right; right; reflexivity|exact H].
Qed.

Lemma post_operation_valid op req w :
  is_operation op ->
  (forall b, req_body req = Some b ->
     valid_input (body_userId b) (body_assetCode b) (body_amount b)) ->
  exists out w',
    post_operation op req w = (Return out, w') /\ ~ validation_failure out.
Proof.
  intros Hop Hvalid. destruct (is_operation_flow op Hop) as [f ->].
  unfold post_operation. rewrite guarded_run.
  destruct (req_body req) as [b|] eqn:Hb.
  - specialize (Hvalid b eq_refl). unfold bind.
    destruct (operation f _ _ _ _ _ _ w) as [[res|e] w1] eqn:Hrun.
    + eexists _, _. split; [reflexivity|]. simpl. tauto.
    + eexists _, _. split; [reflexivity|]. simpl.
      by apply (operation_valid_run _ _ _ _ _ _ _ _ _ _ Hvalid Hrun).
  - eexists _, _. split; [reflexivity|]. simpl. apply type_error_not_validation.
Qed.



End middleware_theorem.

(** * Part III: further properties of the code *)

Import App Invariants.
